(** * QUE_raw_timestamps: the cycle extractor and the display transform

    A shallow embedding of [src/QUE_raw_timestamps.py]:
    [convert_to_raw_timestamp], [WebRawTimestampsExporter.parse_timestamp]
    and [WebRawTimestampsExporter.process_raw_timestamps].

    Python values are modelled as follows.
    - A JSON value that is a string or null/absent is an [option string]
      ([None] for both null and a missing key, as [dict.get] returns [None]
      for both).  Strings are byte strings; Python compares [str] by code
      point, which for UTF-8 encoded text is the byte order of
      [String.ltb].
    - A [datetime] is its wall-clock time, counted in microseconds since
      0001-01-01T00:00:00, together with an optional UTC offset (absent for
      a naive value).
    - An exception that leaves a function is the [Raise] case of [result];
      the progress messages the extractor prints are not modelled.
    - [datetime.fromisoformat] is a library function whose accepted grammar
      depends on the interpreter version: the development is parametric in
      it (class [Fromisoformat]), and [fromisoformat_ext] is a concrete parser
      of the common profile for running the code on examples. *)

From Stdlib Require Import ZArith List String Ascii Bool Lia Sorted Permutation.
From Stdlib Require OrdersEx.
From stdpp Require Import base option gmap strings.
Import ListNotations.

Local Open Scope string_scope.
Local Open Scope Z_scope.

(** ** Exceptions *)

Inductive exn : Type :=
| TypeError
| OverflowError
| KeyError
| IndexError.

Inductive result (A : Type) : Type :=
| Ok (a : A)
| Raise (e : exn).
Arguments Ok {A} a.
Arguments Raise {A} e.

#[global] Instance result_ret : MRet result := fun A a => Ok a.
#[global] Instance result_fmap : FMap result := fun A B f m =>
  match m with
  | Ok a => Ok (f a)
  | Raise e => Raise e
  end.
#[global] Instance result_bind : MBind result := fun A B f m =>
  match m with
  | Ok a => f a
  | Raise e => Raise e
  end.

(** ** datetime *)

Record datetime : Type := {
  wall : Z;                (* microseconds since 0001-01-01T00:00:00 *)
  utcoffset : option Z     (* microseconds east of UTC; None when naive *)
}.

Definition US_PER_SECOND : Z := 1000000.
Definition US_PER_HOUR : Z := 3600 * US_PER_SECOND.
Definition US_PER_DAY : Z := 24 * US_PER_HOUR.
(* datetime.max.toordinal() = 3652059 *)
Definition MAXORDINAL : Z := 3652059.

(* datetime.min *)
Definition datetime_min : datetime := {| wall := 0; utcoffset := None |}.

Definition in_range (w : Z) : bool := (0 <=? w) && (w <? MAXORDINAL * US_PER_DAY).

(* Ordering comparisons of two datetimes: both naive, or both aware (then
   compared as instants); a naive and an aware operand raise TypeError. *)
Definition dt_cmp (op : Z -> Z -> bool) (a b : datetime) : result bool :=
  match utcoffset a, utcoffset b with
  | None, None => Ok (op (wall a) (wall b))
  | Some oa, Some ob => Ok (op (wall a - oa) (wall b - ob))
  | _, _ => Raise TypeError
  end.

Definition dt_lt : datetime -> datetime -> result bool := dt_cmp Z.ltb.
Definition dt_ge : datetime -> datetime -> result bool := dt_cmp Z.geb.

(* dt.replace(tzinfo=None) *)
Definition replace_tzinfo_None (d : datetime) : datetime :=
  {| wall := wall d; utcoffset := None |}.

(* dt + timedelta(hours=h): OverflowError outside [datetime.min, datetime.max] *)
Definition add_hours (d : datetime) (h : Z) : result datetime :=
  let w := wall d + h * US_PER_HOUR in
  if in_range w then Ok {| wall := w; utcoffset := utcoffset d |}
  else Raise OverflowError.

(** *** Calendar arithmetic (proleptic Gregorian, as in the datetime module) *)

Definition is_leap (year : Z) : bool :=
  (year mod 4 =? 0) && (negb (year mod 100 =? 0) || (year mod 400 =? 0)).

Definition days_before_month_tbl (month : Z) : Z :=
  match month with
  | 1 => 0 | 2 => 31 | 3 => 59 | 4 => 90 | 5 => 120 | 6 => 151
  | 7 => 181 | 8 => 212 | 9 => 243 | 10 => 273 | 11 => 304 | 12 => 334
  | _ => 0
  end.

Definition days_in_month (year month : Z) : Z :=
  match month with
  | 2 => if is_leap year then 29 else 28
  | 4 | 6 | 9 | 11 => 30
  | _ => 31
  end.

Definition days_before_year (year : Z) : Z :=
  let y := year - 1 in y * 365 + y / 4 - y / 100 + y / 400.

Definition days_before_month (year month : Z) : Z :=
  days_before_month_tbl month + (if (2 <? month) && is_leap year then 1 else 0).

Definition ymd2ord (year month day : Z) : Z :=
  days_before_year year + days_before_month year month + day.

Definition ord2ymd (ordinal : Z) : Z * Z * Z :=
  let n := ordinal - 1 in
  let n400 := n / 146097 in
  let n := n mod 146097 in
  let year := n400 * 400 + 1 in
  let n100 := n / 36524 in
  let n := n mod 36524 in
  let n4 := n / 1461 in
  let n := n mod 1461 in
  let n1 := n / 365 in
  let n := n mod 365 in
  let year := year + n100 * 100 + n4 * 4 + n1 in
  if (n1 =? 4) || (n100 =? 4) then (year - 1, 12, 31)
  else
    let leapyear := (n1 =? 3) && (negb (n4 =? 24) || (n100 =? 3)) in
    let month := Z.shiftr (n + 50) 5 in
    let preceding :=
      days_before_month_tbl month + (if (2 <? month) && leapyear then 1 else 0) in
    if n <? preceding then
      let month := month - 1 in
      let preceding :=
        preceding - (match month with
                     | 2 => if leapyear then 29 else 28
                     | 4 | 6 | 9 | 11 => 30
                     | _ => 31
                     end) in
      (year, month, n - preceding + 1)
    else (year, month, n - preceding + 1).

(** *** Formatting *)

Definition digit_char (d : Z) : ascii := ascii_of_N (Z.to_N (48 + d mod 10)).

Definition pad2 (n : Z) : string :=
  String (digit_char (n / 10)) (String (digit_char n) EmptyString).

Definition pad4 (n : Z) : string :=
  String (digit_char (n / 1000)) (String (digit_char (n / 100)) (pad2 n)).

(* %Y: strftime hands the format to the C library, which writes the year
   as its decimal number without padding; years of [datetime] are 1..9999,
   so the year has four digits from year 1000 on and fewer before. *)
Definition year_digits (y : Z) : string :=
  if y <? 10 then String (digit_char y) EmptyString
  else if y <? 100 then pad2 y
  else if y <? 1000 then String (digit_char (y / 100)) (pad2 y)
  else pad4 y.

(* strftime('%Y-%m-%d %H:%M:%S'); month, day, hour, minute and second are
   written with two digits. *)
Definition strftime (d : datetime) : string :=
  let days := wall d / US_PER_DAY in
  let secs := (wall d mod US_PER_DAY) / US_PER_SECOND in
  let '(y, m, dd) := ord2ymd (days + 1) in
  (year_digits y ++ "-" ++ pad2 m ++ "-" ++ pad2 dd ++ " " ++
   pad2 (secs / 3600) ++ ":" ++ pad2 (secs / 60 mod 60) ++ ":" ++ pad2 (secs mod 60))%string.

(** *** A concrete ISO parser

    [fromisoformat_ext] accepts [YYYY-MM-DD], optionally followed by one
    separator character and a time [HH], [HH:MM] or [HH:MM:SS], the last
    with an optional fraction of three or six digits, and an optional
    offset [+HH:MM] or [-HH:MM]: strings that every version of
    [datetime.fromisoformat] accepts, with the same value.  Later versions
    accept further ISO 8601 forms; the general theorems hold for any
    parser. *)

Definition digit_val (c : ascii) : option Z :=
  let n := Z.of_N (N_of_ascii c) in
  if (48 <=? n) && (n <=? 57) then Some (n - 48) else None.

Fixpoint digits (n : nat) (acc : Z) (s : string) : option (Z * string) :=
  match n with
  | O => Some (acc, s)
  | S n' =>
      match s with
      | String c s' => d ← digit_val c; digits n' (acc * 10 + d) s'
      | EmptyString => None
      end
  end.

Definition expect (c : ascii) (s : string) : option string :=
  match s with
  | String c' s' => if Ascii.eqb c c' then Some s' else None
  | EmptyString => None
  end.

Definition parse_offset (sign : Z) (s : string) : option Z :=
  '(hh, s) ← digits 2 0 s;
  s ← expect ":" s;
  '(mm, s) ← digits 2 0 s;
  match s with
  | EmptyString =>
      if (hh <? 24) && (mm <? 60)
      then Some (sign * (hh * 60 + mm) * 60 * US_PER_SECOND)
      else None
  | _ => None
  end.

Definition parse_tz (s : string) : option (option Z) :=
  match s with
  | EmptyString => Some None
  | String c s' =>
      if Ascii.eqb c "+" then o ← parse_offset 1 s'; Some (Some o)
      else if Ascii.eqb c "-" then o ← parse_offset (-1) s'; Some (Some o)
      else None
  end.

Definition parse_fraction (s : string) : option (Z * string) :=
  match s with
  | String "." s' =>
      '(ms, s3) ← digits 3 0 s';
      match digits 3 ms s3 with
      | Some r => Some r
      | None => Some (ms * 1000, s3)
      end
  | _ => Some (0, s)
  end.

(* [:SS[.fff[fff]]] *)
Definition parse_seconds (s : string) : option (Z * Z * string) :=
  match s with
  | String ":" s' =>
      '(ss, s) ← digits 2 0 s';
      '(us, s) ← parse_fraction s;
      Some (ss, us, s)
  | _ => Some (0, 0, s)
  end.

(* [:MM[:SS[.fff[fff]]]] *)
Definition parse_minutes (s : string) : option (Z * Z * Z * string) :=
  match s with
  | String ":" s' =>
      '(mi, s) ← digits 2 0 s';
      '(ss, us, s) ← parse_seconds s;
      Some (mi, ss, us, s)
  | _ => Some (0, 0, 0, s)
  end.

Definition parse_time (s : string) : option (Z * option Z) :=
  '(hh, s) ← digits 2 0 s;
  '(mi, ss, us, s) ← parse_minutes s;
  tz ← parse_tz s;
  if (hh <? 24) && (mi <? 60) && (ss <? 60)
  then Some (((hh * 60 + mi) * 60 + ss) * US_PER_SECOND + us, tz)
  else None.

Definition fromisoformat_ext (s : string) : option datetime :=
  '(y, s) ← digits 4 0 s;
  s ← expect "-" s;
  '(m, s) ← digits 2 0 s;
  s ← expect "-" s;
  '(d, s) ← digits 2 0 s;
  if (1 <=? y) && (1 <=? m) && (m <=? 12) && (1 <=? d) && (d <=? days_in_month y m)
  then
    let day0 := (ymd2ord y m d - 1) * US_PER_DAY in
    match s with
    | EmptyString => Some {| wall := day0; utcoffset := None |}
    | String _ s' =>
        '(t, tz) ← parse_time s';
        Some {| wall := day0 + t; utcoffset := tz |}
    end
  else None.

(** ** Python built-ins used by the extractor *)

(* truthiness of a value that is a str or None *)
Definition truthy (v : option string) : bool :=
  match v with
  | Some s => negb (String.eqb s "")
  | None => false
  end.

(* l[-1] *)
Fixpoint last_item {A : Type} (l : list A) : result A :=
  match l with
  | [] => Raise IndexError
  | [x] => Ok x
  | _ :: l' => last_item l'
  end.

(* d[k] on a dict *)
Definition getitem {V : Type} (d : gmap string V) (k : string) : result V :=
  match d !! k with
  | Some v => Ok v
  | None => Raise KeyError
  end.

(* sorted(l, key=...) with datetime keys.  The list sort is stable and
   propagates the first exception of a comparison.  It is modelled by the
   stable insertion sort: on keys that compare without exception every
   stable sort returns the same list, and on a list that mixes naive and
   aware keys every comparison sort has to compare a naive key with an
   aware one, which raises TypeError. *)
Fixpoint insort {A : Type} (key : A -> datetime) (x : A) (acc : list A)
  : result (list A) :=
  match acc with
  | [] => Ok [x]
  | y :: acc' =>
      b ← dt_lt (key x) (key y);
      if b : bool then Ok (x :: y :: acc')
      else l ← insort key x acc'; Ok (y :: l)
  end.

Fixpoint sorted_onto {A : Type} (key : A -> datetime) (acc : list A) (l : list A)
  : result (list A) :=
  match l with
  | [] => Ok acc
  | x :: l' => acc' ← insort key x acc; sorted_onto key acc' l'
  end.

Definition sorted {A : Type} (key : A -> datetime) (l : list A) : result (list A) :=
  sorted_onto key [] l.

(* list.sort(key=...) with str keys: stable, no exception *)
Fixpoint insert_by {A : Type} (key : A -> string) (x : A) (acc : list A) : list A :=
  match acc with
  | [] => [x]
  | y :: acc' =>
      if String.ltb (key x) (key y) then x :: y :: acc'
      else y :: insert_by key x acc'
  end.

Definition sort_by {A : Type} (key : A -> string) (l : list A) : list A :=
  List.fold_left (fun acc x => insert_by key x acc) l [].

(* [r for r in l if p(r)] where the test may raise *)
Fixpoint filter_raising {A : Type} (p : A -> result bool) (l : list A)
  : result (list A) :=
  match l with
  | [] => Ok []
  | x :: l' =>
      b ← p x;
      rest ← filter_raising p l';
      Ok (if b : bool then x :: rest else rest)
  end.

(* s.replace('Z', '+00:00') *)
Fixpoint replace_Z (s : string) : string :=
  match s with
  | EmptyString => EmptyString
  | String c s' =>
      if Ascii.eqb c "Z" then ("+00:00" ++ replace_Z s')%string
      else String c (replace_Z s')
  end.

(** ** Data model *)

(* One record of history_data: the four keys the extractor reads. *)
Record record : Type := {
  source : option string;
  workstation_name : option string;
  history_station_start_time : option string;
  history_station_end_time : option string
}.

(* {'start': ..., 'end': ...} *)
Record visit : Type := {
  start : option string;
  end_ : option string
}.

#[global] Instance visit_eq_dec : EqDecision visit.
Proof. solve_decision. Defined.

(* The result dict of process_raw_timestamps: a fixed set of keys. *)
Record milestones : Type := {
  serial_number : string;
  vi1_end : option string;
  vi1_next_station : option string;
  vi1_next_start : option string;
  upgrade_end : option string;
  bbd_assy_station : option string;
  bbd_assy_start : option string;
  bbd_assy_end : option string;
  fla_chiflash_station : option string;
  fla_chiflash_start : option string;
  packing_end : option string;
  shipping_start : option string
}.

Definition empty_result (sn : string) : milestones := {|
  serial_number := sn;
  vi1_end := None;
  vi1_next_station := None;
  vi1_next_start := None;
  upgrade_end := None;
  bbd_assy_station := None;
  bbd_assy_start := None;
  bbd_assy_end := None;
  fla_chiflash_station := None;
  fla_chiflash_start := None;
  packing_end := None;
  shipping_start := None
|}.

(** Assignments [result[key] = v], grouped as the code groups them. *)

Definition set_vi1_end (r : milestones) (v : option string) : milestones := {|
  serial_number := serial_number r;
  vi1_end := v;
  vi1_next_station := vi1_next_station r;
  vi1_next_start := vi1_next_start r;
  upgrade_end := upgrade_end r;
  bbd_assy_station := bbd_assy_station r;
  bbd_assy_start := bbd_assy_start r;
  bbd_assy_end := bbd_assy_end r;
  fla_chiflash_station := fla_chiflash_station r;
  fla_chiflash_start := fla_chiflash_start r;
  packing_end := packing_end r;
  shipping_start := shipping_start r
|}.

Definition set_vi1_next (r : milestones) (station strt : option string) : milestones := {|
  serial_number := serial_number r;
  vi1_end := vi1_end r;
  vi1_next_station := station;
  vi1_next_start := strt;
  upgrade_end := upgrade_end r;
  bbd_assy_station := bbd_assy_station r;
  bbd_assy_start := bbd_assy_start r;
  bbd_assy_end := bbd_assy_end r;
  fla_chiflash_station := fla_chiflash_station r;
  fla_chiflash_start := fla_chiflash_start r;
  packing_end := packing_end r;
  shipping_start := shipping_start r
|}.

Definition set_upgrade_end (r : milestones) (v : option string) : milestones := {|
  serial_number := serial_number r;
  vi1_end := vi1_end r;
  vi1_next_station := vi1_next_station r;
  vi1_next_start := vi1_next_start r;
  upgrade_end := v;
  bbd_assy_station := bbd_assy_station r;
  bbd_assy_start := bbd_assy_start r;
  bbd_assy_end := bbd_assy_end r;
  fla_chiflash_station := fla_chiflash_station r;
  fla_chiflash_start := fla_chiflash_start r;
  packing_end := packing_end r;
  shipping_start := shipping_start r
|}.

Definition set_bbd_assy (r : milestones) (station strt e : option string) : milestones := {|
  serial_number := serial_number r;
  vi1_end := vi1_end r;
  vi1_next_station := vi1_next_station r;
  vi1_next_start := vi1_next_start r;
  upgrade_end := upgrade_end r;
  bbd_assy_station := station;
  bbd_assy_start := strt;
  bbd_assy_end := e;
  fla_chiflash_station := fla_chiflash_station r;
  fla_chiflash_start := fla_chiflash_start r;
  packing_end := packing_end r;
  shipping_start := shipping_start r
|}.

Definition set_fla_chiflash (r : milestones) (station strt : option string) : milestones := {|
  serial_number := serial_number r;
  vi1_end := vi1_end r;
  vi1_next_station := vi1_next_station r;
  vi1_next_start := vi1_next_start r;
  upgrade_end := upgrade_end r;
  bbd_assy_station := bbd_assy_station r;
  bbd_assy_start := bbd_assy_start r;
  bbd_assy_end := bbd_assy_end r;
  fla_chiflash_station := station;
  fla_chiflash_start := strt;
  packing_end := packing_end r;
  shipping_start := shipping_start r
|}.

Definition set_packing_end (r : milestones) (v : option string) : milestones := {|
  serial_number := serial_number r;
  vi1_end := vi1_end r;
  vi1_next_station := vi1_next_station r;
  vi1_next_start := vi1_next_start r;
  upgrade_end := upgrade_end r;
  bbd_assy_station := bbd_assy_station r;
  bbd_assy_start := bbd_assy_start r;
  bbd_assy_end := bbd_assy_end r;
  fla_chiflash_station := fla_chiflash_station r;
  fla_chiflash_start := fla_chiflash_start r;
  packing_end := v;
  shipping_start := shipping_start r
|}.

Definition set_shipping_start (r : milestones) (v : option string) : milestones := {|
  serial_number := serial_number r;
  vi1_end := vi1_end r;
  vi1_next_station := vi1_next_station r;
  vi1_next_start := vi1_next_start r;
  upgrade_end := upgrade_end r;
  bbd_assy_station := bbd_assy_station r;
  bbd_assy_start := bbd_assy_start r;
  bbd_assy_end := bbd_assy_end r;
  fla_chiflash_station := fla_chiflash_station r;
  fla_chiflash_start := fla_chiflash_start r;
  packing_end := packing_end r;
  shipping_start := v
|}.

(** ** The extractor *)

Abbreviation stations_t := (gmap string (list visit)).

(* A milestone candidate: (station, start) in steps 1 and 3 of the code,
   (station, start, end) in step 2; the sort key is the start in each. *)
Definition candidate : Type := string * string * option string.
Definition cand_station (c : candidate) : string := c.1.1.
Definition cand_start (c : candidate) : string := c.1.2.
Definition cand_end (c : candidate) : option string := c.2.

(* t['start'] and bound and t['start'] > bound; the start when it holds *)
Definition later (bound : option string) (t : visit) : option string :=
  match start t, bound with
  | Some s, Some b =>
      if negb (String.eqb s "") && negb (String.eqb b "") && String.ltb b s
      then Some s else None
  | _, _ => None
  end.

(* for t in visits: if <later>: candidates.append(...); break *)
Fixpoint first_after (bound : option string) (visits : list visit)
  : option (string * visit) :=
  match visits with
  | [] => None
  | t :: rest =>
      match later bound t with
      | Some s => Some (s, t)
      | None => first_after bound rest
      end
  end.

(* if name in stations: <the loop above over stations[name]> *)
Definition candidates_of (stations : stations_t) (name : string)
    (bound : option string) : list candidate :=
  match stations !! name with
  | Some visits =>
      match first_after bound visits with
      | Some (s, t) => [(name, s, end_ t)]
      | None => []
      end
  | None => []
  end.

(* candidates.sort(key=lambda x: x[1]); candidates[0] when there is one *)
Definition pick (candidates : list candidate) : option candidate :=
  match sort_by cand_start candidates with
  | c :: _ => Some c
  | [] => None
  end.

(* for u in stations['UPGRADE']: if u['start'] == next_station_start: ...; break *)
Definition find_matching (next_station_start : option string) (upgrades : list visit)
  : option visit :=
  List.find (fun u => bool_decide (start u = next_station_start)) upgrades.

Definition visit_of (r : record) : visit :=
  {| start := history_station_start_time r; end_ := history_station_end_time r |}.

(* The body of the grouping loop.  [record['workstation_name']] is a
   non-empty string for every record that passed the filter; a record
   without a name, which cannot reach the loop, is filed under the empty
   name, which no step looks up. *)
Definition add_visit (stations : stations_t) (r : record) : stations_t :=
  let station := default "" (workstation_name r) in
  <[station := (default [] (stations !! station) ++ [visit_of r])%list]> stations.

Definition build_stations (workstation_data : list record) : stations_t :=
  List.fold_left add_visit workstation_data ∅.

Definition is_workstation (r : record) : bool :=
  bool_decide (source r = Some "workstation") && truthy (workstation_name r).

Definition is_receive (r : record) : bool :=
  bool_decide (workstation_name r = Some "RECEIVE").

(* datetime.fromisoformat, the parser the interpreter provides: [None]
   stands for ValueError *)
Class Fromisoformat : Type :=
  fromisoformat : string -> option datetime.

Section Extractor.

Context `{iso : Fromisoformat}.

Definition parse_timestamp (ts_str : option string) : datetime :=
  match ts_str with
  | Some s =>
      if String.eqb s "" then datetime_min
      else match fromisoformat (replace_Z s) with
           | Some d => d
           | None => datetime_min
           end
  | None => datetime_min
  end.

Definition convert_to_raw_timestamp (iso_timestamp : string) : result string :=
  if String.eqb iso_timestamp "" then Ok ""
  else
    match fromisoformat (replace_Z iso_timestamp) with
    | Some dt =>
        utc_dt ← add_hours (replace_tzinfo_None dt) (-8);
        adjusted_dt ← add_hours utc_dt 4;
        Ok (strftime adjusted_dt)
    | None => Ok iso_timestamp
    end.

Definition start_key (r : record) : datetime :=
  parse_timestamp (history_station_start_time r).

Definition end_key (v : visit) : datetime := parse_timestamp (end_ v).

(* Lines 113-140: the records of the current cycle. *)
Definition current_cycle (workstation_data : list record) : result (list record) :=
  let receive_records := List.filter is_receive workstation_data in
  match receive_records with
  | [] => Ok workstation_data
  | _ :: _ =>
      sorted_receives ← sorted start_key receive_records;
      most_recent_receive ← last_item sorted_receives;
      let most_recent_receive_time := start_key most_recent_receive in
      filter_raising (fun r => dt_ge (start_key r) most_recent_receive_time)
                     workstation_data
  end.

(* sorted(visits, key=parse(end))[-1]['end'] *)
Definition most_recent_end (visits : list visit) : result (option string) :=
  sorted_visits ← sorted end_key visits;
  v ← last_item sorted_visits;
  Ok (end_ v).

(* Lines 171-248: VI1 end, next station, upgrade end, BBD/ASSY1. *)
Definition step_vi1 (stations : stations_t) (result0 : milestones) : result milestones :=
  match stations !! "VI1" with
  | Some vi1 =>
      vi1_end ← most_recent_end vi1;
      let result1 := set_vi1_end result0 vi1_end in
      let candidates :=
        (candidates_of stations "Disassembly" vi1_end ++
         candidates_of stations "UPGRADE" vi1_end)%list in
      let next_station_name := cand_station <$> pick candidates in
      let next_station_start := cand_start <$> pick candidates in
      let result2 := set_vi1_next result1 next_station_name next_station_start in
      if bool_decide (next_station_name = Some "UPGRADE") then
        upgrades ← getitem stations "UPGRADE";
        match find_matching next_station_start upgrades with
        | Some matching_upgrade =>
            let result3 := set_upgrade_end result2 (end_ matching_upgrade) in
            let candidates :=
              (candidates_of stations "BBD" (end_ matching_upgrade) ++
               candidates_of stations "ASSY1" (end_ matching_upgrade) ++
               candidates_of stations "Assembley" (end_ matching_upgrade))%list in
            match pick candidates with
            | Some c =>
                Ok (set_bbd_assy result3 (Some (cand_station c))
                                 (Some (cand_start c)) (cand_end c))
            | None => Ok result3
            end
        | None => Ok result2
        end
      else Ok result2
  | None => Ok result0
  end.

(* Lines 249-271: FLA/CHIFLASH after the BBD/ASSY1 end. *)
Definition step_fla (stations : stations_t) (result0 : milestones) : milestones :=
  if truthy (bbd_assy_station result0) && truthy (bbd_assy_end result0) then
    let prev_end := bbd_assy_end result0 in
    let candidates :=
      (candidates_of stations "FLA" prev_end ++
       candidates_of stations "CHIFLASH" prev_end)%list in
    match pick candidates with
    | Some c => set_fla_chiflash result0 (Some (cand_station c)) (Some (cand_start c))
    | None => result0
    end
  else result0.

(* Lines 273-288: packing end and shipping start. *)
Definition step_packing (stations : stations_t) (result0 : milestones) : result milestones :=
  match stations !! "PACKING" with
  | Some packing =>
      packing_end ← most_recent_end packing;
      let result1 := set_packing_end result0 packing_end in
      match stations !! "SHIPPING" with
      | Some shipping =>
          match first_after packing_end shipping with
          | Some (s, _) => Ok (set_shipping_start result1 (Some s))
          | None => Ok result1
          end
      | None => Ok result1
      end
  | None => Ok result0
  end.

(* Lines 156-290: the milestone walk over the grouped stations. *)
Definition walk (serial_number : string) (stations : stations_t) : result milestones :=
  result1 ← step_vi1 stations (empty_result serial_number);
  step_packing stations (step_fla stations result1).

Definition process_raw_timestamps (serial_number : string) (history_data : list record)
  : result milestones :=
  match history_data with
  | [] => Ok (empty_result serial_number)
  | _ :: _ =>
      let workstation_data := List.filter is_workstation history_data in
      match workstation_data with
      | [] => Ok (empty_result serial_number)
      | _ :: _ =>
          cycle ← current_cycle workstation_data;
          walk serial_number (build_stations cycle)
      end
  end.

End Extractor.

(** ** The export driver

    [export_raw_timestamps] asks the API for the history of the serial
    numbers ten at a time, runs the extractor on the records of each serial
    number and writes one CSV row per result.  The API is a parameter: the
    answer to the k-th call, for the batch it is given.  The rows are the
    lists handed to the CSV writer; the file itself and the progress
    messages are not modelled. *)

(* One record of api_response['history']: the serial number under 'sn'
   ([None] when the key is missing) and the keys the extractor reads. *)
Record history_record : Type := {
  sn : option string;
  fields : record
}.

(* The dict returned by get_serial_history: the truth value of
   api_response.get('success') and api_response.get('history', []). *)
Record api_response : Type := {
  success : bool;
  history : list history_record
}.

Definition batch_size : nat := 10.

(* range(0, n, batch_size) *)
Definition batch_starts (n : nat) : list nat :=
  List.map (fun k => (k * batch_size)%nat) (seq 0 ((n + (batch_size - 1)) / batch_size)).

(* serial_numbers[i:i + batch_size] *)
Definition slice (serial_numbers : list string) (i : nat) : list string :=
  take batch_size (drop i serial_numbers).

Definition batches (serial_numbers : list string) : list (list string) :=
  List.map (slice serial_numbers) (batch_starts (length serial_numbers)).

(* [f(x) for x in l] where f may raise *)
Fixpoint map_raising {A B : Type} (f : A -> result B) (l : list A) : result (list B) :=
  match l with
  | [] => Ok []
  | x :: l' => y ← f x; ys ← map_raising f l'; Ok (y :: ys)
  end.

(* sn = record['sn']; history_by_sn[sn].append(record) *)
Definition add_history (history_by_sn : gmap string (list record)) (h : history_record)
  : result (gmap string (list record)) :=
  match sn h with
  | Some s => Ok (<[s := (default [] (history_by_sn !! s) ++ [fields h])%list]> history_by_sn)
  | None => Raise KeyError
  end.

Fixpoint group_history (history_by_sn : gmap string (list record))
    (hs : list history_record) : result (gmap string (list record)) :=
  match hs with
  | [] => Ok history_by_sn
  | h :: hs' => m ← add_history history_by_sn h; group_history m hs'
  end.

Definition csv_header : list string :=
  ["Serial Number"; "VI1 End Time"; "Next Station After VI1";
   "Next Station Start Time"; "Upgrade End Time"; "BBD/ASSY1 Station";
   "BBD/ASSY1 Start Time"; "BBD/ASSY1 End Time"; "FLA/CHIFLASH Station";
   "FLA/CHIFLASH Start Time"; "Packing End Time"; "Shipping Start Time"]%string.

(* result[key] if result[key] else '' *)
Definition station_cell (v : option string) : string :=
  match v with
  | Some s => s
  | None => ""
  end.

Section ExportDriver.

Context `{iso : Fromisoformat}.

(* convert_to_raw_timestamp(result[key]) if result[key] else '' *)
Definition timestamp_cell (v : option string) : result string :=
  match v with
  | Some s => if String.eqb s "" then Ok "" else convert_to_raw_timestamp s
  | None => Ok ""
  end.

(* the list handed to writer.writerow for one result *)
Definition csv_row (r : milestones) : result (list string) :=
  c1 ← timestamp_cell (vi1_end r);
  c3 ← timestamp_cell (vi1_next_start r);
  c4 ← timestamp_cell (upgrade_end r);
  c6 ← timestamp_cell (bbd_assy_start r);
  c7 ← timestamp_cell (bbd_assy_end r);
  c9 ← timestamp_cell (fla_chiflash_start r);
  c10 ← timestamp_cell (packing_end r);
  c11 ← timestamp_cell (shipping_start r);
  Ok [serial_number r; c1; station_cell (vi1_next_station r); c3; c4;
      station_cell (bbd_assy_station r); c6; c7;
      station_cell (fla_chiflash_station r); c9; c10; c11].

(* the answer of the k-th call of get_serial_history, for its batch *)
Variable get_serial_history : nat -> list string -> api_response.

(* the body of the batch loop: the results it appends *)
Definition process_batch (k : nat) (batch : list string) : result (list milestones) :=
  let response := get_serial_history k batch in
  if success response then
    history_by_sn ← group_history ∅ (history response);
    map_raising
      (fun s => process_raw_timestamps s (default [] (history_by_sn !! s))) batch
  else Ok [].

Fixpoint process_batches (k : nat) (bs : list (list string)) : result (list milestones) :=
  match bs with
  | [] => Ok []
  | batch :: bs' =>
      rs ← process_batch k batch;
      rest ← process_batches (S k) bs';
      Ok (rs ++ rest)%list
  end.

(* the rows written to the file and the list returned *)
Definition export_raw_timestamps (serial_numbers : list string)
  : result (list (list string) * list milestones) :=
  results ← process_batches 0 (batches serial_numbers);
  rows ← map_raising csv_row results;
  Ok (csv_header :: rows, results).

End ExportDriver.

(** * Vocabulary of the statements *)

Definition aware (d : datetime) : bool :=
  match utcoffset d with Some _ => true | None => false end.

(* the point in time an aware value denotes; the wall clock of a naive one *)
Definition instant (d : datetime) : Z := wall d - default 0 (utcoffset d).

(* ascending order of the keys *)
Definition key_le {A : Type} (key : A -> datetime) (x y : A) : Prop :=
  instant (key x) <= instant (key y).

(* every key of the list is aware (k = true) or every key is naive *)
Definition uniform {A : Type} (key : A -> datetime) (k : bool) (l : list A) : Prop :=
  Forall (fun x => aware (key x) = k) l.

(* the key of x is not before t *)
Definition at_or_after {A : Type} (key : A -> datetime) (t : datetime) (x : A) : bool :=
  instant (key x) >=? instant t.

Definition station_of (r : record) : string := default "" (workstation_name r).

(* the visits of the records of one station, in the order of the list *)
Definition visits_named (name : string) (l : list record) : list visit :=
  List.map visit_of (List.filter (fun r => bool_decide (station_of r = name)) l).

Definition group (stations : stations_t) (name : string) : list visit :=
  default [] (stations !! name).

(* no key of the dict holds an empty list *)
Definition no_empty_group (stations : stations_t) : Prop :=
  forall name, stations !! name <> Some [].

(* the first element of a list that passes a test *)
Definition first_such {A : Type} (P : A -> Prop) (l : list A) (x : A) : Prop :=
  exists l1 l2, l = (l1 ++ x :: l2)%list /\ P x /\ Forall (fun y => ~ P y) l1.

(* the fields written by each of the three parts of the walk *)
Definition vi1_fields (r : milestones) :=
  (serial_number r, vi1_end r, vi1_next_station r, vi1_next_start r,
   upgrade_end r, bbd_assy_station r, bbd_assy_start r, bbd_assy_end r).
Definition fla_fields (r : milestones) :=
  (fla_chiflash_station r, fla_chiflash_start r).
Definition packing_fields (r : milestones) :=
  (packing_end r, shipping_start r).

Definition next_candidates (stations : stations_t) (vi1_end : option string)
  : list candidate :=
  (candidates_of stations "Disassembly" vi1_end ++
   candidates_of stations "UPGRADE" vi1_end)%list.

Definition bbd_candidates (stations : stations_t) (upgrade_end : option string)
  : list candidate :=
  (candidates_of stations "BBD" upgrade_end ++
   candidates_of stations "ASSY1" upgrade_end ++
   candidates_of stations "Assembley" upgrade_end)%list.

Definition fla_candidates (stations : stations_t) (prev_end : option string)
  : list candidate :=
  (candidates_of stations "FLA" prev_end ++
   candidates_of stations "CHIFLASH" prev_end)%list.

(* strictly increasing in the order of str *)
Fixpoint ascending (l : list string) : bool :=
  match l with
  | a :: (b :: _) as l' => String.ltb a b && ascending l'
  | _ => true
  end.

(* strictly increasing as parsed timestamps, all naive or all aware *)
Fixpoint chronological `{iso : Fromisoformat} (l : list string) : Prop :=
  match l with
  | a :: (b :: _) as l' =>
      dt_lt (parse_timestamp (Some a)) (parse_timestamp (Some b)) = Ok true /\
      chronological l'
  | _ => True
  end.

(** ** The next station, in the words of the specification *)

(* the start string of the visit is strictly greater than [e] *)
Definition starts_after (e : string) (t : visit) : bool :=
  match start t with
  | Some s => String.ltb e s
  | None => false
  end.

(* the first visit, in original list order, that starts after [e] *)
Definition first_starting_after (e : string) (visits : list visit) : option visit :=
  List.find (starts_after e) visits.

Definition starts_before (u d : visit) : bool :=
  match start u, start d with
  | Some a, Some b => String.ltb a b
  | _, _ => false
  end.

(* of the two candidates the one with the smallest start; the first on a tie *)
Definition earliest_of (first second : string) (d u : option visit)
  : option (string * option string) :=
  match d, u with
  | Some d, Some u =>
      if starts_before u d then Some (second, start u) else Some (first, start d)
  | Some d, None => Some (first, start d)
  | None, Some u => Some (second, start u)
  | None, None => None
  end.

Definition EIGHT_HOURS : Z := 8 * US_PER_HOUR.

(* the wall clock moved back by the net four hours, without zone *)
Definition shifted (d : datetime) : datetime :=
  {| wall := wall d - 4 * US_PER_HOUR; utcoffset := None |}.

(* a workstation record *)
Definition station_record (station : string) (start_time end_time : option string)
  : record := {|
  source := Some "workstation";
  workstation_name := Some station;
  history_station_start_time := start_time;
  history_station_end_time := end_time
|}.



(** ** Vocabulary of the further properties *)

(* the candidate of one station: its first visit, in original order, that
   starts after [e] *)
Definition candidate_after (e : string) (cycle : list record) (name : string)
  : list candidate :=
  match first_starting_after e (visits_named name cycle) with
  | Some t =>
      match start t with
      | Some s => [(name, s, end_ t)]
      | None => []
      end
  | None => []
  end.

(* the candidates of the stations, in the order the stations are enumerated *)
Definition candidates_after (e : string) (cycle : list record) (names : list string)
  : list candidate :=
  flat_map (candidate_after e cycle) names.

(* w has the smallest start of the candidates and is the first that has it *)
Definition earliest (candidates : list candidate) (w : candidate) : Prop :=
  exists l1 l2,
    candidates = (l1 ++ w :: l2)%list /\
    Forall (fun x => String.ltb (cand_start w) (cand_start x) = true) l1 /\
    Forall (fun x => String.ltb (cand_start x) (cand_start w) = false) l2.

(* the candidate kept while the list is read from left to right: a later
   one replaces it only with a strictly smaller start *)
Definition running_min (m : candidate) (l : list candidate) : candidate :=
  List.fold_left
    (fun m x => if String.ltb (cand_start x) (cand_start m) then x else m) l m.

(* the stations the walk looks up *)
Definition milestone_stations : list string :=
  ["VI1"; "Disassembly"; "UPGRADE"; "BBD"; "ASSY1"; "Assembley"; "FLA"; "CHIFLASH";
   "PACKING"; "SHIPPING"]%string.

(* the records of a response that carry the serial number s, in order *)
Definition records_of (s : string) (hs : list history_record) : list record :=
  List.map fields (List.filter (fun h => bool_decide (sn h = Some s)) hs).

(* the batches whose API call succeeded *)
Fixpoint answered (api : nat -> list string -> api_response) (k : nat)
    (bs : list (list string)) : list (list string) :=
  match bs with
  | [] => []
  | b :: bs' =>
      if success (api k b) then b :: answered api (S k) bs' else answered api (S k) bs'
  end.

(* a complete history of one unit, with an earlier cycle before the RECEIVE *)
Definition sample_history : list record :=
  [station_record "VI1" (Some "2024-04-01T08:00:00") (Some "2024-04-01T09:00:00");
   station_record "RECEIVE" (Some "2024-05-01T07:00:00") (Some "2024-05-01T07:10:00");
   station_record "VI1" (Some "2024-05-01T08:00:00") (Some "2024-05-01T09:00:00");
   station_record "UPGRADE" (Some "2024-05-01T10:00:00") (Some "2024-05-01T11:00:00");
   station_record "BBD" (Some "2024-05-01T12:00:00") (Some "2024-05-01T13:00:00");
   station_record "FLA" (Some "2024-05-01T14:00:00") (Some "2024-05-01T15:00:00");
   station_record "PACKING" (Some "2024-05-02T08:00:00") (Some "2024-05-02T09:00:00");
   station_record "SHIPPING" (Some "2024-05-02T10:00:00") None].

(* a record of the API's history, with its serial number *)
Definition tagged (s : string) (r : record) : history_record :=
  {| sn := Some s; fields := r |}.

Definition twelve_serials : list string :=
  ["S01"; "S02"; "S03"; "S04"; "S05"; "S06"; "S07"; "S08"; "S09"; "S10"; "S11"; "S12"]%string.

(* an API that knows the unit S02 and answers the first call only *)
Definition sample_api (k : nat) (batch : list string) : api_response :=
  match k with
  | O => {| success := true; history := List.map (tagged "S02") sample_history |}
  | S _ => {| success := false; history := [] |}
  end.

(* an API that is down *)
Definition failing_api (k : nat) (batch : list string) : api_response :=
  {| success := false; history := [] |}.

(** * Properties *)

(** ** The error monad *)

Lemma bind_Ok {A B : Type} (f : A -> result B) (m : result A) (b : B) :
  m ≫= f = Ok b -> exists a, m = Ok a /\ f a = Ok b.
Proof. destruct m as [a|e]; [eauto | discriminate]. Qed.

Ltac inv_bind H :=
  let a := fresh "a" in
  let Ha := fresh "Ha" in
  apply bind_Ok in H; destruct H as (a & Ha & H).

(** ** Comparing datetimes *)

Lemma dt_cmp_same op a b :
  aware a = aware b -> dt_cmp op a b = Ok (op (instant a) (instant b)).
Proof.
  unfold aware, instant, dt_cmp.
  destruct (utcoffset a), (utcoffset b); simpl; try discriminate; intros _;
    rewrite ?Z.sub_0_r; reflexivity.
Qed.

Lemma dt_cmp_mixed op a b :
  aware a <> aware b -> dt_cmp op a b = Raise TypeError.
Proof.
  unfold aware, dt_cmp.
  destruct (utcoffset a), (utcoffset b); simpl; intros H; congruence.
Qed.

Lemma dt_cmp_Ok op a b r :
  dt_cmp op a b = Ok r -> aware a = aware b /\ r = op (instant a) (instant b).
Proof.
  intros H. destruct (bool_decide (aware a = aware b)) eqn:E.
  - apply bool_decide_eq_true in E. rewrite (dt_cmp_same _ _ _ E) in H.
    split; congruence.
  - apply bool_decide_eq_false in E. rewrite (dt_cmp_mixed _ _ _ E) in H.
    discriminate.
Qed.

Lemma dt_cmp_raises op a b e : dt_cmp op a b = Raise e -> e = TypeError.
Proof.
  unfold dt_cmp. destruct (utcoffset a), (utcoffset b); congruence.
Qed.

(** ** sorted *)

Section SortedByKey.

Context {A : Type} (key : A -> datetime).

Lemma insort_uniform k x acc :
  aware (key x) = k -> uniform key k acc ->
  exists l, insort key x acc = Ok l /\ Permutation (x :: acc) l /\
            (StronglySorted (key_le key) acc -> StronglySorted (key_le key) l).
Proof.
  intros Hx. induction acc as [|y acc IH]; intros Hu.
  - exists [x]. repeat split; auto. intros _. repeat constructor.
  - inversion Hu as [|? ? Hy Hu']; subst.
    destruct (IH Hu') as (l & Hl & Hp & Hs).
    simpl. unfold dt_lt. rewrite dt_cmp_same by congruence. simpl.
    destruct (instant (key x) <? instant (key y)) eqn:E.
    + exists (x :: y :: acc). repeat split; auto.
      intros Hacc. constructor; auto.
      apply Z.ltb_lt in E.
      constructor; [unfold key_le; lia|].
      inversion Hacc as [|? ? ? Hall]; subst.
      eapply Forall_impl; [exact Hall|]. unfold key_le. simpl. intros; lia.
    + rewrite Hl. simpl. exists (y :: l). repeat split.
      * rewrite perm_swap. by constructor.
      * intros Hacc. inversion Hacc as [|? ? Hacc' Hall]; subst.
        constructor; auto.
        apply Z.ltb_ge in E.
        rewrite <- Hp. constructor; auto.
Qed.

Lemma sorted_onto_uniform k acc l :
  uniform key k acc -> uniform key k l -> StronglySorted (key_le key) acc ->
  exists l', sorted_onto key acc l = Ok l' /\ Permutation (acc ++ l) l' /\
             StronglySorted (key_le key) l'.
Proof.
  revert acc. induction l as [|x l IH]; intros acc Ha Hl Hs.
  - exists acc. rewrite app_nil_r. auto.
  - inversion Hl as [|? ? Hx Hl']; subst.
    destruct (insort_uniform _ x acc eq_refl Ha) as (acc' & Hi & Hp & Hs').
    assert (Ha' : uniform key (aware (key x)) acc').
    { unfold uniform. rewrite <- Hp. by constructor. }
    destruct (IH acc' Ha' Hl' (Hs' Hs)) as (l' & Hl'' & Hp' & Hs'').
    exists l'. simpl. rewrite Hi. simpl. repeat split; auto.
    rewrite <- Hp', <- Hp. simpl. symmetry. apply Permutation_middle.
Qed.

(** On keys of one kind [sorted] returns the list in ascending order. *)
Lemma sorted_uniform k l :
  uniform key k l ->
  exists l', sorted key l = Ok l' /\ Permutation l l' /\ StronglySorted (key_le key) l'.
Proof.
  intros Hl. apply (sorted_onto_uniform k [] l); auto; constructor.
Qed.

Lemma insort_Ok_head x y acc l :
  insort key x (y :: acc) = Ok l -> aware (key x) = aware (key y).
Proof.
  simpl. intros H. inv_bind H. by apply dt_cmp_Ok in Ha as [Ha _].
Qed.

Lemma sorted_onto_Ok k acc l l' :
  acc <> [] -> uniform key k acc -> sorted_onto key acc l = Ok l' -> uniform key k l.
Proof.
  revert acc. induction l as [|x l IH]; intros acc Hne Ha H; [constructor|].
  simpl in H. inv_bind H.
  destruct acc as [|y acc]; [done|].
  pose proof (insort_Ok_head _ _ _ _ Ha0) as Hxy.
  inversion Ha as [|? ? Hy _]; subst.
  destruct (insort_uniform _ x (y :: acc) Hxy Ha) as (acc' & Hi & Hp & _).
  rewrite Hi in Ha0. injection Ha0 as <-.
  constructor; auto.
  apply (IH acc'); auto.
  - intros ->. by apply Permutation_nil_r in Hp.
  - unfold uniform. rewrite <- Hp. by constructor.
Qed.

(** [sorted] returns only on keys of one kind. *)
Lemma sorted_Ok l l' : sorted key l = Ok l' -> exists k, uniform key k l.
Proof.
  destruct l as [|x l]; intros H; [exists true; constructor|].
  exists (aware (key x)). constructor; auto.
  unfold sorted in H. simpl in H.
  apply (sorted_onto_Ok _ [x] l l'); auto. by repeat constructor.
Qed.

Lemma sorted_Ok_spec l l' :
  sorted key l = Ok l' -> Permutation l l' /\ StronglySorted (key_le key) l'.
Proof.
  intros H. destruct (sorted_Ok _ _ H) as (k & Hk).
  destruct (sorted_uniform k l Hk) as (l'' & H' & Hp & Hs).
  rewrite H in H'. injection H' as <-. auto.
Qed.

Lemma insort_raises x acc e : insort key x acc = Raise e -> e = TypeError.
Proof.
  induction acc as [|y acc IH]; simpl; [discriminate|].
  destruct (dt_lt (key x) (key y)) as [b|e'] eqn:E; simpl.
  - destruct b; [discriminate|].
    destruct (insort key x acc); simpl; [discriminate|].
    intros [= <-]. by apply IH.
  - intros [= <-]. by apply dt_cmp_raises in E.
Qed.

Lemma sorted_raises l e : sorted key l = Raise e -> e = TypeError.
Proof.
  unfold sorted. generalize (@nil A). induction l as [|x l IH]; intros acc; simpl;
    [discriminate|].
  destruct (insort key x acc) as [acc'|e'] eqn:E; simpl.
  - apply IH.
  - intros [= <-]. by apply insort_raises in E.
Qed.

Lemma last_item_Ok (l : list A) : l <> [] -> exists b, last_item l = Ok b.
Proof.
  induction l as [|x [|y l] IH]; intros H; [done|by exists x|].
  apply IH. discriminate.
Qed.

Lemma last_item_In (l : list A) b : last_item l = Ok b -> In b l.
Proof.
  induction l as [|x [|y l] IH]; intros H; [discriminate| |].
  - injection H as <-. by left.
  - right. apply IH. exact H.
Qed.

(** The last item of an ascending list is a greatest one. *)
Lemma last_item_greatest l b :
  StronglySorted (key_le key) l -> last_item l = Ok b -> forall x, In x l -> key_le key x b.
Proof.
  induction l as [|x [|y l] IH]; intros Hs H z Hz; [discriminate| |].
  - injection H as <-. destruct Hz as [<-|[]]. unfold key_le. lia.
  - inversion Hs as [|? ? Hs' Hall]; subst.
    change (last_item (y :: l) = Ok b) in H.
    destruct Hz as [<-|Hz]; [|by apply IH].
    pose proof (last_item_In _ _ H) as Hb.
    rewrite List.Forall_forall in Hall. by apply Hall.
Qed.

End SortedByKey.

(** ** Comprehensions whose test may raise *)

Section FilterRaising.

Context {A : Type} (key : A -> datetime) (t : datetime).

Lemma filter_ge_uniform l :
  Forall (fun x => aware (key x) = aware t) l ->
  filter_raising (fun x => dt_ge (key x) t) l = Ok (List.filter (at_or_after key t) l).
Proof.
  induction 1 as [|x l Hx _ IH]; [reflexivity|].
  cbn [filter_raising]. unfold dt_ge in *. rewrite (dt_cmp_same _ _ _ Hx), IH.
  reflexivity.
Qed.

Lemma filter_ge_Ok l l' :
  filter_raising (fun x => dt_ge (key x) t) l = Ok l' ->
  Forall (fun x => aware (key x) = aware t) l /\ l' = List.filter (at_or_after key t) l.
Proof.
  revert l'. induction l as [|x l IH]; intros l' H.
  - injection H as <-. split; [constructor|reflexivity].
  - cbn [filter_raising] in H. inv_bind H. inv_bind H.
    apply dt_cmp_Ok in Ha as [Hk ->]. destruct (IH _ Ha0) as [Hu ->].
    split; [by constructor|].
    injection H as <-. reflexivity.
Qed.

Lemma filter_ge_raises l e :
  filter_raising (fun x => dt_ge (key x) t) l = Raise e -> e = TypeError.
Proof.
  induction l as [|x l IH]; cbn [filter_raising]; [discriminate|].
  destruct (dt_ge (key x) t) as [b|e'] eqn:E; simpl.
  - destruct (filter_raising _ l); simpl; [discriminate|].
    intros [= <-]. by apply IH.
  - intros [= <-]. by apply dt_cmp_raises in E.
Qed.

End FilterRaising.

Lemma filter_raising_skip {A : Type} (p : A -> result bool) (l1 l2 : list A) (v : A) :
  p v = Ok false ->
  filter_raising p (l1 ++ v :: l2) = filter_raising p (l1 ++ l2).
Proof.
  intros Hv. induction l1 as [|x l1 IH]; simpl.
  - rewrite Hv. simpl. by destruct (filter_raising p l2).
  - by rewrite IH.
Qed.

(** ** Grouping by station *)

Lemma add_visit_group stations r name :
  group (add_visit stations r) name =
  (group stations name ++ visits_named name [r])%list.
Proof.
  unfold group, add_visit, visits_named. fold (station_of r). simpl.
  destruct (decide (station_of r = name)) as [->|Hne].
  - rewrite lookup_insert_eq, bool_decide_eq_true_2 by done. reflexivity.
  - rewrite lookup_insert_ne, bool_decide_eq_false_2 by done.
    simpl. by rewrite app_nil_r.
Qed.

Lemma fold_add_visit_group l stations name :
  group (List.fold_left add_visit l stations) name =
  (group stations name ++ visits_named name l)%list.
Proof.
  revert stations. induction l as [|r l IH]; intros stations; simpl.
  - unfold visits_named. simpl. by rewrite app_nil_r.
  - rewrite IH, add_visit_group. rewrite <- app_assoc. f_equal.
    unfold visits_named. simpl. by destruct (bool_decide _).
Qed.

Lemma fold_add_visit_no_empty l stations :
  no_empty_group stations -> no_empty_group (List.fold_left add_visit l stations).
Proof.
  revert stations. induction l as [|r l IH]; intros stations H; [done|].
  simpl. apply IH. intros name. unfold add_visit.
  destruct (decide (default "" (workstation_name r) = name)) as [->|Hne].
  - rewrite lookup_insert_eq. intros [= E]. by destruct (default [] _).
  - rewrite lookup_insert_ne by done. apply H.
Qed.

(** The dict built by the grouping loop: a station is a key exactly when
    some record of the working set names it, and its value lists the
    visits of those records in their original order. *)
Lemma build_stations_lookup l name :
  build_stations l !! name =
  match visits_named name l with
  | [] => None
  | v :: vs => Some (v :: vs)
  end.
Proof.
  pose proof (fold_add_visit_group l ∅ name) as Hg.
  pose proof (fold_add_visit_no_empty l ∅) as Hn.
  fold (build_stations l) in Hg, Hn.
  unfold group in Hg. rewrite lookup_empty in Hg. simpl in Hg.
  specialize (Hn (fun n => ltac:(by rewrite lookup_empty)) name).
  destruct (build_stations l !! name) as [vs|]; simpl in Hg; rewrite <- Hg.
  - destruct vs; [done|reflexivity].
  - reflexivity.
Qed.

Lemma build_stations_no_empty l : no_empty_group (build_stations l).
Proof.
  apply fold_add_visit_no_empty. intros n. by rewrite lookup_empty.
Qed.

Lemma visits_named_In name l r :
  In r l -> workstation_name r = Some name -> In (visit_of r) (visits_named name l).
Proof.
  intros Hin Hn. unfold visits_named. apply in_map, filter_In. split; auto.
  apply bool_decide_eq_true. unfold station_of. by rewrite Hn.
Qed.

Lemma visits_named_inv name l v :
  In v (visits_named name l) ->
  exists r, In r l /\ station_of r = name /\ v = visit_of r.
Proof.
  unfold visits_named. rewrite in_map_iff. intros (r & <- & Hr).
  apply filter_In in Hr as [Hin Hn]. apply bool_decide_eq_true in Hn. eauto.
Qed.

(** ** The current cycle *)

Section CycleProperties.

Context `{iso : Fromisoformat}.

Lemma current_cycle_no_receive wd :
  List.filter is_receive wd = [] -> current_cycle wd = Ok wd.
Proof. unfold current_cycle. by intros ->. Qed.

Lemma current_cycle_unfold wd :
  List.filter is_receive wd <> [] ->
  current_cycle wd =
  (sorted_receives ← sorted start_key (List.filter is_receive wd);
   most_recent_receive ← last_item sorted_receives;
   filter_raising (fun r => dt_ge (start_key r) (start_key most_recent_receive)) wd).
Proof.
  unfold current_cycle. by destruct (List.filter is_receive wd).
Qed.

Lemma current_cycle_Ok wd cycle :
  List.filter is_receive wd <> [] -> current_cycle wd = Ok cycle ->
  exists sorted_receives boundary,
    sorted start_key (List.filter is_receive wd) = Ok sorted_receives /\
    Permutation (List.filter is_receive wd) sorted_receives /\
    StronglySorted (key_le start_key) sorted_receives /\
    last_item sorted_receives = Ok boundary /\
    Forall (fun r => aware (start_key r) = aware (start_key boundary)) wd /\
    cycle = List.filter (at_or_after start_key (start_key boundary)) wd.
Proof.
  intros Hne H. rewrite (current_cycle_unfold _ Hne) in H.
  inv_bind H. inv_bind H. rename a into sorted_receives, a0 into boundary.
  destruct (sorted_Ok_spec _ _ _ Ha) as [Hp Hs].
  destruct (filter_ge_Ok _ _ _ _ H) as [Hu ->].
  exists sorted_receives, boundary. auto 10.
Qed.

Lemma current_cycle_uniform k wd :
  uniform start_key k wd -> exists cycle, current_cycle wd = Ok cycle.
Proof.
  intros Hu. destruct (List.filter is_receive wd) as [|r rs] eqn:E.
  - exists wd. by apply current_cycle_no_receive.
  - rewrite current_cycle_unfold by (rewrite E; discriminate). rewrite E.
    assert (Hr : uniform start_key k (r :: rs)).
    { apply List.Forall_forall. intros x Hx. rewrite <- E in Hx.
      apply filter_In in Hx as [Hx _].
      unfold uniform in Hu. rewrite List.Forall_forall in Hu. by apply Hu. }
    destruct (sorted_uniform _ _ _ Hr) as (s & Hs & Hp & _). rewrite Hs. simpl.
    destruct (last_item_Ok s) as (b & Hb).
    { intros ->. by apply Permutation_nil_r in Hp. }
    rewrite Hb. simpl. rewrite filter_ge_uniform; [eauto|].
    assert (Hbk : aware (start_key b) = k).
    { apply last_item_In in Hb. rewrite <- Hp in Hb.
      unfold uniform in Hr. rewrite List.Forall_forall in Hr. by apply Hr. }
    eapply Forall_impl; [exact Hu|]. simpl. congruence.
Qed.

Lemma current_cycle_raises wd e : current_cycle wd = Raise e -> e = TypeError.
Proof.
  destruct (List.filter is_receive wd) as [|r rs] eqn:E.
  - rewrite current_cycle_no_receive by done. discriminate.
  - rewrite current_cycle_unfold by (rewrite E; discriminate). rewrite E.
    destruct (sorted start_key (r :: rs)) as [s|e'] eqn:Es; simpl.
    + destruct (last_item s) as [b|e'] eqn:Eb; simpl.
      * apply filter_ge_raises.
      * destruct (sorted_Ok_spec _ _ _ Es) as [Hp _].
        destruct (last_item_Ok s) as (b & Hb); [|congruence].
        intros ->. by apply Permutation_nil_r in Hp.
    + intros [= <-]. by apply sorted_raises in Es.
Qed.

Lemma current_cycle_incl wd cycle r :
  current_cycle wd = Ok cycle -> In r cycle -> In r wd.
Proof.
  intros H Hr. destruct (List.filter is_receive wd) as [|x xs] eqn:E.
  - rewrite current_cycle_no_receive in H by done. congruence.
  - apply current_cycle_Ok in H as (? & ? & _ & _ & _ & _ & _ & ->);
      [|rewrite E; discriminate].
    by apply filter_In in Hr as [Hr _].
Qed.

Lemma process_unfold sn hd :
  List.filter is_workstation hd <> [] ->
  process_raw_timestamps sn hd =
  (cycle ← current_cycle (List.filter is_workstation hd);
   walk sn (build_stations cycle)).
Proof.
  unfold process_raw_timestamps. destruct hd as [|r hd]; [done|].
  by destruct (List.filter is_workstation (r :: hd)).
Qed.

(** A record that is not a RECEIVE and starts before some RECEIVE does not
    influence the result. *)
Lemma earlier_record_ignored sn l1 l2 v r2 :
  is_receive v = false ->
  In r2 (l1 ++ l2) -> is_workstation r2 = true -> is_receive r2 = true ->
  dt_lt (start_key v) (start_key r2) = Ok true ->
  process_raw_timestamps sn (l1 ++ v :: l2) = process_raw_timestamps sn (l1 ++ l2).
Proof.
  intros Hv Hin Hw Hr Hlt.
  assert (Hwd' : In r2 (List.filter is_workstation (l1 ++ l2)))
    by (apply filter_In; auto).
  assert (Hrc' : In r2 (List.filter is_receive (List.filter is_workstation (l1 ++ l2))))
    by (apply filter_In; auto).
  rewrite (process_unfold sn (l1 ++ l2)) by (intros E; rewrite E in Hwd'; inversion Hwd').
  destruct (is_workstation v) eqn:Ewv.
  2:{ rewrite process_unfold.
      - rewrite !List.filter_app. simpl. by rewrite Ewv.
      - rewrite List.filter_app. simpl. rewrite Ewv. rewrite <- List.filter_app.
        intros E; rewrite E in Hwd'; inversion Hwd'. }
  rewrite process_unfold.
  2:{ rewrite List.filter_app. simpl. rewrite Ewv. by destruct (List.filter _ l1). }
  f_equal.
  rewrite !List.filter_app. simpl. rewrite Ewv.
  rewrite List.filter_app in Hrc'.
  set (W1 := List.filter is_workstation l1) in *.
  set (W2 := List.filter is_workstation l2) in *.
  assert (Erc : List.filter is_receive (W1 ++ v :: W2) = List.filter is_receive (W1 ++ W2)).
  { rewrite !List.filter_app. simpl. by rewrite Hv. }
  rewrite !current_cycle_unfold
    by (rewrite ?Erc; intros E; rewrite E in Hrc'; inversion Hrc').
  rewrite Erc.
  destruct (sorted start_key (List.filter is_receive (W1 ++ W2))) as [s|e] eqn:Es;
    [simpl|reflexivity].
  destruct (last_item s) as [b|e] eqn:Eb; [simpl|reflexivity].
  apply filter_raising_skip.
  destruct (sorted_Ok_spec _ _ _ Es) as [Hp Hs].
  destruct (sorted_Ok _ _ _ Es) as (k & Hk).
  unfold uniform in Hk. rewrite List.Forall_forall in Hk.
  pose proof (Hk _ Hrc') as Hk2.
  assert (Hb : In b (List.filter is_receive (W1 ++ W2)))
    by (rewrite Hp; by apply last_item_In).
  pose proof (Hk _ Hb) as Hkb.
  assert (Hle : key_le start_key r2 b).
  { eapply last_item_greatest; eauto. by rewrite <- Hp. }
  apply dt_cmp_Ok in Hlt as [Hkv Hlt].
  unfold dt_ge. rewrite dt_cmp_same by congruence. f_equal.
  symmetry in Hlt. apply Z.ltb_lt in Hlt. unfold key_le in Hle.
  rewrite Z.geb_leb. apply Z.leb_gt. lia.
Qed.

End CycleProperties.

(** ** Scanning for candidates *)

Lemma later_Some bound t s :
  later bound t = Some s ->
  start t = Some s /\ s <> "" /\
  exists b, bound = Some b /\ b <> "" /\ String.ltb b s = true.
Proof.
  unfold later. destruct (start t) as [s'|], bound as [b|]; try discriminate.
  destruct (String.eqb_spec s' ""), (String.eqb_spec b ""),
    (String.ltb b s') eqn:E; try discriminate.
  intros [= <-]. eauto 10.
Qed.

Lemma later_truthy b t s :
  b <> "" -> start t = Some s -> String.ltb b s = true -> later (Some b) t = Some s.
Proof.
  intros Hb Hs Hlt. unfold later. rewrite Hs, Hlt.
  destruct (String.eqb_spec s "") as [->|_].
  - by destruct b.
  - by destruct (String.eqb_spec b "").
Qed.

Lemma later_falsy bound t : truthy bound = false -> later bound t = None.
Proof.
  unfold later, truthy. destruct bound as [b|], (start t); try done.
  intros Hb. apply negb_false_iff in Hb. rewrite Hb.
  by rewrite andb_false_r.
Qed.

Lemma find_first_such {A : Type} (f : A -> bool) (l : list A) (x : A) :
  List.find f l = Some x -> first_such (fun y => f y = true) l x.
Proof.
  induction l as [|y l IH]; simpl; [discriminate|].
  destruct (f y) eqn:E.
  - intros [= <-]. exists [], l. repeat split; auto.
  - intros H. destruct (IH H) as (l1 & l2 & -> & Hx & Hl1).
    exists (y :: l1), l2. repeat split; auto. constructor; auto. congruence.
Qed.

Lemma first_after_Some bound visits s t :
  first_after bound visits = Some (s, t) ->
  later bound t = Some s /\
  first_such (fun u => later bound u <> None) visits t.
Proof.
  induction visits as [|u visits IH]; simpl; [discriminate|].
  destruct (later bound u) as [s'|] eqn:E.
  - intros [= <- <-]. split; auto. exists [], visits. repeat split; auto. congruence.
  - intros H. destruct (IH H) as (Hl & l1 & l2 & -> & Ht & Hl1). split; auto.
    exists (u :: l1), l2. repeat split; auto.
Qed.

Lemma first_after_None bound visits :
  first_after bound visits = None -> Forall (fun u => later bound u = None) visits.
Proof.
  induction visits as [|u visits IH]; simpl; [constructor|].
  destruct (later bound u) eqn:E; [discriminate|]. auto.
Qed.

Lemma first_after_falsy bound visits :
  truthy bound = false -> first_after bound visits = None.
Proof.
  intros Hb. induction visits as [|u visits IH]; simpl; [done|].
  by rewrite later_falsy.
Qed.

Lemma first_such_In {A : Type} (P : A -> Prop) l x : first_such P l x -> In x l.
Proof. intros (l1 & l2 & -> & _). apply in_elt. Qed.

Lemma candidates_of_group stations name bound :
  candidates_of stations name bound =
  match first_after bound (group stations name) with
  | Some (s, t) => [(name, s, end_ t)]
  | None => []
  end.
Proof.
  unfold candidates_of, group. by destruct (stations !! name).
Qed.

Lemma candidates_of_In stations name bound c :
  In c (candidates_of stations name bound) ->
  cand_station c = name /\
  exists visits t, stations !! name = Some visits /\
    first_after bound visits = Some (cand_start c, t) /\ cand_end c = end_ t.
Proof.
  unfold candidates_of. destruct (stations !! name) as [visits|]; [|intros []].
  destruct (first_after bound visits) as [[s t]|] eqn:E; [|intros []].
  intros [<-|[]]. split; [reflexivity|]. exists visits, t. auto.
Qed.

(** ** Picking the earliest candidate *)

Lemma insert_by_perm {A : Type} (key : A -> string) x acc :
  Permutation (x :: acc) (insert_by key x acc).
Proof.
  induction acc as [|y acc IH]; simpl; [done|].
  destruct (String.ltb _ _); [done|].
  rewrite perm_swap. by constructor.
Qed.

Lemma sort_by_perm {A : Type} (key : A -> string) l : Permutation l (sort_by key l).
Proof.
  unfold sort_by. change l with ([] ++ l)%list at 1. generalize (@nil A).
  induction l as [|x l IH]; intros acc; simpl.
  - by rewrite app_nil_r.
  - rewrite <- IH, <- insert_by_perm. simpl. symmetry. apply Permutation_middle.
Qed.

Lemma pick_In candidates c : pick candidates = Some c -> In c candidates.
Proof.
  unfold pick. destruct (sort_by cand_start candidates) as [|c' l] eqn:E; [discriminate|].
  intros [= <-]. rewrite (sort_by_perm cand_start candidates), E. by left.
Qed.

Lemma pick_None candidates : pick candidates = None -> candidates = [].
Proof.
  unfold pick. destruct (sort_by cand_start candidates) as [|c' l] eqn:E; [|discriminate].
  intros _. apply Permutation_nil_r. by rewrite <- E, <- sort_by_perm.
Qed.

(* of two candidates the second wins only with a strictly smaller start *)
Lemma pick_two c1 c2 :
  pick [c1; c2] = Some (if String.ltb (cand_start c2) (cand_start c1) then c2 else c1).
Proof.
  unfold pick, sort_by. simpl. by destruct (String.ltb _ _).
Qed.

(** ** The matching UPGRADE visit *)

Lemma find_matching_Some o upgrades m :
  find_matching o upgrades = Some m -> first_such (fun u => start u = o) upgrades m.
Proof.
  intros H. apply find_first_such in H as (l1 & l2 & -> & Hm & Hl1).
  exists l1, l2. repeat split; auto.
  - by apply bool_decide_eq_true in Hm.
  - eapply Forall_impl; [exact Hl1|]. simpl. intros u Hu Hs. apply Hu.
    by apply bool_decide_eq_true.
Qed.

Lemma find_matching_exists o upgrades t :
  In t upgrades -> start t = o -> exists m, find_matching o upgrades = Some m.
Proof.
  intros Hin Hs. unfold find_matching.
  destruct (List.find _ upgrades) as [m|] eqn:E; [eauto|].
  pose proof (find_none _ _ E _ Hin) as Hf. simpl in Hf.
  by apply bool_decide_eq_false in Hf.
Qed.

(** ** The milestone walk *)

Section WalkProperties.

Context `{iso : Fromisoformat}.

Lemma most_recent_end_Ok visits e :
  most_recent_end visits = Ok e ->
  exists sorted_visits v,
    sorted end_key visits = Ok sorted_visits /\
    Permutation visits sorted_visits /\
    StronglySorted (key_le end_key) sorted_visits /\
    last_item sorted_visits = Ok v /\ e = end_ v.
Proof.
  unfold most_recent_end. intros H. inv_bind H. inv_bind H. injection H as <-.
  destruct (sorted_Ok_spec _ _ _ Ha). eauto 10.
Qed.

Lemma most_recent_end_uniform k visits :
  visits <> [] -> uniform end_key k visits -> exists e, most_recent_end visits = Ok e.
Proof.
  intros Hne Hu. unfold most_recent_end.
  destruct (sorted_uniform _ _ _ Hu) as (s & -> & Hp & _). simpl.
  destruct (last_item_Ok s) as (v & ->); [|simpl; eauto].
  intros ->. apply Permutation_nil_r in Hp. done.
Qed.

Lemma most_recent_end_raises visits e :
  most_recent_end visits = Raise e -> visits <> [] -> e = TypeError.
Proof.
  unfold most_recent_end. intros H Hne.
  destruct (sorted end_key visits) as [s|e'] eqn:Es; simpl in H.
  - destruct (sorted_Ok_spec _ _ _ Es) as [Hp _].
    destruct (last_item_Ok s) as (v & Hv).
    + intros ->. by apply Permutation_nil_r in Hp.
    + rewrite Hv in H. discriminate.
  - injection H as <-. by apply sorted_raises in Es.
Qed.

(** A picked candidate named UPGRADE comes from the UPGRADE group, so the
    scan for the visit with its start finds one. *)
Lemma upgrade_candidate_matches (stations : stations_t) e c :
  pick (candidates_of stations "Disassembly" e ++ candidates_of stations "UPGRADE" e)
    = Some c ->
  cand_station c = "UPGRADE" ->
  exists upgrades t m,
    stations !! "UPGRADE" = Some upgrades /\
    first_after e upgrades = Some (cand_start c, t) /\
    find_matching (Some (cand_start c)) upgrades = Some m.
Proof.
  intros Hp Hc. apply pick_In, in_app_or in Hp as [Hin|Hin];
    apply candidates_of_In in Hin as (Hn & ups & t & Hl & Hf & _).
  - rewrite Hc in Hn. discriminate.
  - destruct (first_after_Some _ _ _ _ Hf) as (Hlater & Hfirst).
    apply later_Some in Hlater as (Hs & _).
    destruct (find_matching_exists (Some (cand_start c)) ups t) as (m & Hm); auto.
    + eapply first_such_In, Hfirst.
    + exists ups, t, m. auto.
Qed.

Lemma step_vi1_absent (stations : stations_t) r0 :
  stations !! "VI1" = None -> step_vi1 stations r0 = Ok r0.
Proof. unfold step_vi1. by intros ->. Qed.

(** What the first part of the walk writes when VI1 has visits. *)
Lemma step_vi1_present (stations : stations_t) sn vi1 r1 :
  stations !! "VI1" = Some vi1 ->
  step_vi1 stations (empty_result sn) = Ok r1 ->
  exists e,
    most_recent_end vi1 = Ok e /\
    serial_number r1 = sn /\
    vi1_end r1 = e /\
    vi1_next_station r1 = cand_station <$> pick (next_candidates stations e) /\
    vi1_next_start r1 = cand_start <$> pick (next_candidates stations e) /\
    fla_fields r1 = (None, None) /\ packing_fields r1 = (None, None) /\
    ((vi1_next_station r1 = Some "UPGRADE" /\
      exists upgrades m,
        stations !! "UPGRADE" = Some upgrades /\
        find_matching (vi1_next_start r1) upgrades = Some m /\
        upgrade_end r1 = end_ m /\
        bbd_assy_station r1 = cand_station <$> pick (bbd_candidates stations (end_ m)) /\
        bbd_assy_start r1 = cand_start <$> pick (bbd_candidates stations (end_ m)) /\
        bbd_assy_end r1 = pick (bbd_candidates stations (end_ m)) ≫= cand_end)
     \/
     (vi1_next_station r1 <> Some "UPGRADE" /\
      upgrade_end r1 = None /\ bbd_assy_station r1 = None /\
      bbd_assy_start r1 = None /\ bbd_assy_end r1 = None)).
Proof.
  intros Hvi1 H. unfold step_vi1 in H. rewrite Hvi1 in H.
  inv_bind H. rename a into e. exists e. split; [exact Ha|].
  fold (next_candidates stations e) in H.
  destruct (pick (next_candidates stations e)) as [c|] eqn:Ep; simpl in H.
  2:{ injection H as <-. simpl. repeat split; auto. right. repeat split; auto. }
  destruct (bool_decide (Some (cand_station c) = Some "UPGRADE")) eqn:Eb.
  2:{ injection H as <-. simpl. apply bool_decide_eq_false in Eb.
      repeat split; auto. right. repeat split; auto. }
  apply bool_decide_eq_true in Eb. injection Eb as Eb.
  destruct (upgrade_candidate_matches _ _ _ Ep Eb) as (ups & t & m & Hups & _ & Hm).
  unfold getitem in H. rewrite Hups in H. simpl in H. rewrite Hm in H.
  fold (bbd_candidates stations (end_ m)) in H.
  destruct (pick (bbd_candidates stations (end_ m))) as [bc|] eqn:Ebc;
    injection H as <-; simpl; repeat split; auto; left;
    (split; [by rewrite Eb|]); exists ups, m; rewrite Ebc; repeat split; auto.
Qed.

Lemma step_fla_frame (stations : stations_t) r :
  vi1_fields (step_fla stations r) = vi1_fields r /\
  packing_fields (step_fla stations r) = packing_fields r.
Proof.
  unfold step_fla. destruct (_ && _); [|done]. by destruct (pick _).
Qed.

Lemma step_fla_spec (stations : stations_t) r :
  fla_fields r = (None, None) ->
  fla_fields (step_fla stations r) =
  if truthy (bbd_assy_station r) && truthy (bbd_assy_end r) then
    (cand_station <$> pick (fla_candidates stations (bbd_assy_end r)),
     cand_start <$> pick (fla_candidates stations (bbd_assy_end r)))
  else (None, None).
Proof.
  intros Hr. unfold step_fla. fold (fla_candidates stations (bbd_assy_end r)).
  destruct (_ && _); [|done]. by destruct (pick _).
Qed.

Lemma step_packing_frame (stations : stations_t) r0 r :
  step_packing stations r0 = Ok r ->
  vi1_fields r = vi1_fields r0 /\ fla_fields r = fla_fields r0.
Proof.
  unfold step_packing. destruct (stations !! "PACKING") as [packing|].
  - intros H. inv_bind H. destruct (stations !! "SHIPPING") as [shipping|].
    + destruct (first_after a shipping) as [[s t]|]; by injection H as <-.
    + by injection H as <-.
  - by intros [= <-].
Qed.

Lemma step_packing_absent (stations : stations_t) r0 :
  stations !! "PACKING" = None -> step_packing stations r0 = Ok r0.
Proof. unfold step_packing. by intros ->. Qed.

Lemma step_packing_present (stations : stations_t) packing r0 r :
  stations !! "PACKING" = Some packing ->
  packing_fields r0 = (None, None) ->
  step_packing stations r0 = Ok r ->
  exists pe,
    most_recent_end packing = Ok pe /\ packing_end r = pe /\
    shipping_start r = fst <$> first_after pe (group stations "SHIPPING").
Proof.
  intros Hp Hr0 H. unfold step_packing in H. rewrite Hp in H. inv_bind H.
  exists a. split; [done|]. unfold group. injection Hr0 as _ Hs.
  destruct (stations !! "SHIPPING") as [shipping|]; simpl.
  - destruct (first_after a shipping) as [[s t]|]; by injection H as <-.
  - by injection H as <-.
Qed.

Lemma walk_Ok sn (stations : stations_t) r :
  walk sn stations = Ok r ->
  exists r1, step_vi1 stations (empty_result sn) = Ok r1 /\
             step_packing stations (step_fla stations r1) = Ok r /\
             vi1_fields r = vi1_fields r1.
Proof.
  unfold walk. intros H. inv_bind H. exists a. repeat split; auto.
  apply step_packing_frame in H as [-> _]. apply step_fla_frame.
Qed.

End WalkProperties.

(** ** Running the walk on a working set *)

Lemma group_build_stations l name : group (build_stations l) name = visits_named name l.
Proof.
  unfold build_stations. rewrite fold_add_visit_group.
  unfold group. by rewrite lookup_empty.
Qed.

Lemma candidates_of_build l name bound :
  candidates_of (build_stations l) name bound =
  match first_after bound (visits_named name l) with
  | Some (s, t) => [(name, s, end_ t)]
  | None => []
  end.
Proof. by rewrite candidates_of_group, group_build_stations. Qed.

Lemma ltb_nonempty a b : String.ltb a b = true -> b <> "".
Proof. intros H ->. by destruct a. Qed.

Lemma dt_lt_ge a b : dt_lt a b = Ok true -> dt_ge b a = Ok true.
Proof.
  intros H. apply dt_cmp_Ok in H as [Hk H]. unfold dt_ge.
  rewrite dt_cmp_same by done. f_equal.
  symmetry in H. apply Z.ltb_lt in H. rewrite Z.geb_leb. apply Z.leb_le. lia.
Qed.

Lemma dt_lt_ge_trans a b c : dt_ge b a = Ok true -> dt_lt b c = Ok true -> dt_ge c a = Ok true.
Proof.
  intros H1 H2. apply dt_cmp_Ok in H1 as [Hk1 H1]. apply dt_cmp_Ok in H2 as [Hk2 H2].
  unfold dt_ge. rewrite dt_cmp_same by congruence. f_equal.
  symmetry in H1, H2. rewrite Z.geb_leb in H1. apply Z.leb_le in H1.
  apply Z.ltb_lt in H2. rewrite Z.geb_leb. apply Z.leb_le. lia.
Qed.

Lemma dt_ge_refl a : dt_ge a a = Ok true.
Proof.
  unfold dt_ge. rewrite dt_cmp_same by done. f_equal.
  rewrite Z.geb_leb. apply Z.leb_refl.
Qed.

Lemma pick_one c : pick [c] = Some c.
Proof. reflexivity. Qed.

Lemma truthy_Some s : s <> "" -> truthy (Some s) = true.
Proof. intros Hs. simpl. by destruct (String.eqb_spec s ""). Qed.

Ltac run_visits_named :=
  repeat match goal with
  | |- context [visits_named ?n ?l] =>
      let t := eval vm_compute in (visits_named n l) in
      change (visits_named n l) with t
  end.

(** ** From the input to the walk *)

Lemma process_Ok `{iso : Fromisoformat} sn hd r :
  process_raw_timestamps sn hd = Ok r ->
  (List.filter is_workstation hd = [] /\ r = empty_result sn) \/
  (exists cycle,
     current_cycle (List.filter is_workstation hd) = Ok cycle /\
     walk sn (build_stations cycle) = Ok r).
Proof.
  intros H. destruct (List.filter is_workstation hd) as [|x l] eqn:E.
  - left. split; auto. unfold process_raw_timestamps in H.
    destruct hd; [|rewrite E in H]; congruence.
  - right. rewrite process_unfold in H by (rewrite E; discriminate).
    rewrite E in H. inv_bind H. eauto.
Qed.

(** The fields of the first part of the walk, read off the final result. *)
Lemma walk_vi1_part `{iso : Fromisoformat} sn (stations : stations_t) r :
  walk sn stations = Ok r ->
  match stations !! "VI1" with
  | None => vi1_fields r = vi1_fields (empty_result sn)
  | Some vi1 =>
      most_recent_end vi1 = Ok (vi1_end r) /\
      vi1_next_station r = cand_station <$> pick (next_candidates stations (vi1_end r)) /\
      vi1_next_start r = cand_start <$> pick (next_candidates stations (vi1_end r)) /\
      ((vi1_next_station r = Some "UPGRADE" /\
        exists upgrades m,
          stations !! "UPGRADE" = Some upgrades /\
          find_matching (vi1_next_start r) upgrades = Some m /\
          upgrade_end r = end_ m /\
          bbd_assy_station r = cand_station <$> pick (bbd_candidates stations (end_ m)) /\
          bbd_assy_start r = cand_start <$> pick (bbd_candidates stations (end_ m)) /\
          bbd_assy_end r = pick (bbd_candidates stations (end_ m)) ≫= cand_end)
       \/
       (vi1_next_station r <> Some "UPGRADE" /\
        upgrade_end r = None /\ bbd_assy_station r = None /\
        bbd_assy_start r = None /\ bbd_assy_end r = None))
  end.
Proof.
  intros H. apply walk_Ok in H as (r1 & H1 & _ & Hf).
  destruct (stations !! "VI1") as [vi1|] eqn:E.
  - destruct (step_vi1_present _ _ _ _ E H1) as (e & He & _ & <- & Hn & Hs & _ & _ & Hb).
    unfold vi1_fields in Hf.
    injection Hf as _ Hf1 Hf2 Hf3 Hf4 Hf5 Hf6 Hf7.
    rewrite Hf1, Hf2, Hf3, Hf4, Hf5, Hf6, Hf7. auto.
  - rewrite step_vi1_absent in H1 by done. by injection H1 as <-.
Qed.

(** ** The next station against its specification *)

Lemma first_after_truthy b visits :
  b <> "" ->
  first_after (Some b) visits =
  match first_starting_after b visits with
  | Some t => match start t with Some s => Some (s, t) | None => None end
  | None => None
  end.
Proof.
  intros Hb. unfold first_starting_after.
  induction visits as [|t visits IH]; simpl; [done|].
  unfold starts_after at 1. destruct (start t) as [s|] eqn:Es.
  - destruct (String.ltb b s) eqn:El.
    + rewrite (later_truthy b t s) by done. by rewrite Es.
    + unfold later. rewrite Es, El, andb_false_r. exact IH.
  - unfold later. rewrite Es. exact IH.
Qed.

Lemma first_starting_after_start e visits t :
  first_starting_after e visits = Some t -> exists s, start t = Some s.
Proof.
  intros H. apply find_some in H as [_ H]. unfold starts_after in H.
  destruct (start t); [eauto|discriminate].
Qed.

Lemma next_candidates_truthy l e :
  e <> "" ->
  (fun c => (cand_station c, Some (cand_start c))) <$>
    pick (next_candidates (build_stations l) (Some e)) =
  earliest_of "Disassembly" "UPGRADE"
    (first_starting_after e (visits_named "Disassembly" l))
    (first_starting_after e (visits_named "UPGRADE" l)).
Proof.
  intros He. unfold next_candidates. rewrite !candidates_of_build.
  rewrite !first_after_truthy by done.
  destruct (first_starting_after e (visits_named "Disassembly" l)) as [d|] eqn:Ed;
    destruct (first_starting_after e (visits_named "UPGRADE" l)) as [u|] eqn:Eu;
    try (destruct (first_starting_after_start _ _ _ Ed) as (sd & Hd); rewrite Hd);
    try (destruct (first_starting_after_start _ _ _ Eu) as (su & Hu); rewrite Hu);
    simpl; try reflexivity.
  - rewrite pick_two. unfold starts_before. rewrite Hd, Hu. simpl.
    unfold cand_start. simpl. by destruct (String.ltb su sd).
  - by rewrite Hd.
  - by rewrite Hu.
Qed.

(** ** Packing and shipping *)

Lemma step_vi1_other_fields `{iso : Fromisoformat} sn (stations : stations_t) r1 :
  step_vi1 stations (empty_result sn) = Ok r1 ->
  fla_fields r1 = (None, None) /\ packing_fields r1 = (None, None).
Proof.
  intros H. destruct (stations !! "VI1") as [vi1|] eqn:E.
  - destruct (step_vi1_present _ _ _ _ E H) as (_ & _ & _ & _ & _ & _ & Hf & Hp & _).
    auto.
  - rewrite step_vi1_absent in H by done. by injection H as <-.
Qed.

Lemma walk_packing_part `{iso : Fromisoformat} sn (stations : stations_t) r :
  walk sn stations = Ok r ->
  match stations !! "PACKING" with
  | None => packing_end r = None /\ shipping_start r = None
  | Some packing =>
      most_recent_end packing = Ok (packing_end r) /\
      shipping_start r = fst <$> first_after (packing_end r) (group stations "SHIPPING")
  end.
Proof.
  intros H. apply walk_Ok in H as (r1 & H1 & H2 & _).
  apply step_vi1_other_fields in H1 as [_ Hp].
  destruct (step_fla_frame stations r1) as [_ Hp'].
  rewrite Hp in Hp'.
  destruct (stations !! "PACKING") as [packing|] eqn:E.
  - destruct (step_packing_present _ _ _ _ E Hp' H2) as (pe & Hpe & <- & Hs). auto.
  - rewrite step_packing_absent in H2 by done. injection H2 as <-.
    by injection Hp'.
Qed.

Lemma first_after_none_after p visits :
  Forall (fun t => starts_after p t = false) visits -> first_after (Some p) visits = None.
Proof.
  induction 1 as [|t visits Ht _ IH]; simpl; [done|].
  destruct (later (Some p) t) as [s|] eqn:E; [|exact IH].
  apply later_Some in E as (Hs & _ & b & [= <-] & _ & Hlt).
  unfold starts_after in Ht. rewrite Hs in Ht. congruence.
Qed.

(** ** Records with a missing start or end *)

Lemma candidates_of_visit (stations : stations_t) name bound c :
  In c (candidates_of stations name bound) ->
  cand_station c = name /\
  exists t, In t (group stations name) /\ start t = Some (cand_start c) /\
            cand_start c <> "" /\ cand_end c = end_ t.
Proof.
  intros H. apply candidates_of_In in H as (Hn & visits & t & Hl & Hf & He).
  split; [done|]. exists t.
  destruct (first_after_Some _ _ _ _ Hf) as [Hlater Hfirst].
  apply later_Some in Hlater as (Hs & Hne & _).
  unfold group. rewrite Hl. simpl. repeat split; auto.
  eapply first_such_In, Hfirst.
Qed.

Lemma picked_visit (stations : stations_t) (candidates : list candidate) c :
  (forall c', In c' candidates ->
     exists name bound, In c' (candidates_of stations name bound)) ->
  pick candidates = Some c ->
  exists t, In t (group stations (cand_station c)) /\
            start t = Some (cand_start c) /\ cand_start c <> "" /\
            cand_end c = end_ t.
Proof.
  intros Hall Hp. apply pick_In in Hp.
  destruct (Hall _ Hp) as (name & bound & Hin).
  apply candidates_of_visit in Hin as (<- & Ht). exact Ht.
Qed.

Lemma next_candidates_from (stations : stations_t) e c :
  In c (next_candidates stations e) ->
  exists name bound, In c (candidates_of stations name bound).
Proof. intros H. apply in_app_or in H as [H|H]; eauto. Qed.

Lemma bbd_candidates_from (stations : stations_t) e c :
  In c (bbd_candidates stations e) ->
  exists name bound, In c (candidates_of stations name bound).
Proof.
  intros H. apply in_app_or in H as [H|H]; [eauto|].
  apply in_app_or in H as [H|H]; eauto.
Qed.

Lemma fla_candidates_from (stations : stations_t) e c :
  In c (fla_candidates stations e) ->
  exists name bound, In c (candidates_of stations name bound).
Proof. intros H. apply in_app_or in H as [H|H]; eauto. Qed.

Lemma walk_fla_part `{iso : Fromisoformat} sn (stations : stations_t) r :
  walk sn stations = Ok r ->
  fla_fields r =
  if truthy (bbd_assy_station r) && truthy (bbd_assy_end r) then
    (cand_station <$> pick (fla_candidates stations (bbd_assy_end r)),
     cand_start <$> pick (fla_candidates stations (bbd_assy_end r)))
  else (None, None).
Proof.
  intros H. apply walk_Ok in H as (r1 & H1 & H2 & Hf).
  apply step_vi1_other_fields in H1 as [Hfla _].
  apply step_packing_frame in H2 as [_ ->].
  rewrite (step_fla_spec _ _ Hfla).
  unfold vi1_fields in Hf. injection Hf as _ _ _ _ _ -> _ ->. reflexivity.
Qed.

(** ** When the extractor returns *)

Lemma step_vi1_result `{iso : Fromisoformat} (stations : stations_t) r0 :
  match stations !! "VI1" with
  | None => step_vi1 stations r0 = Ok r0
  | Some vi1 =>
      match most_recent_end vi1 with
      | Ok _ => exists r1, step_vi1 stations r0 = Ok r1
      | Raise e => step_vi1 stations r0 = Raise e
      end
  end.
Proof.
  unfold step_vi1. destruct (stations !! "VI1") as [vi1|]; [|done].
  destruct (most_recent_end vi1) as [e|e]; [|done]. simpl.
  fold (next_candidates stations e).
  destruct (pick (next_candidates stations e)) as [c|] eqn:Ep; simpl; [|eauto].
  destruct (bool_decide (Some (cand_station c) = Some "UPGRADE")) eqn:Eb; [|eauto].
  apply bool_decide_eq_true in Eb. injection Eb as Eb.
  destruct (upgrade_candidate_matches _ _ _ Ep Eb) as (ups & t & m & Hups & _ & Hm).
  unfold getitem. rewrite Hups. simpl. rewrite Hm.
  fold (bbd_candidates stations (end_ m)).
  destruct (pick (bbd_candidates stations (end_ m))); eauto.
Qed.

Lemma step_packing_result `{iso : Fromisoformat} (stations : stations_t) r0 :
  match stations !! "PACKING" with
  | None => step_packing stations r0 = Ok r0
  | Some packing =>
      match most_recent_end packing with
      | Ok _ => exists r1, step_packing stations r0 = Ok r1
      | Raise e => step_packing stations r0 = Raise e
      end
  end.
Proof.
  unfold step_packing. destruct (stations !! "PACKING") as [packing|]; [|done].
  destruct (most_recent_end packing) as [e|e]; [|done]. simpl.
  destruct (stations !! "SHIPPING") as [shipping|]; [|eauto].
  destruct (first_after e shipping) as [[s t]|]; eauto.
Qed.

(** The walk returns when the parsed ends of the VI1 visits are of one kind
    and so are those of the PACKING visits. *)
Lemma walk_total `{iso : Fromisoformat} sn (stations : stations_t) k1 k2 :
  no_empty_group stations ->
  uniform end_key k1 (group stations "VI1") ->
  uniform end_key k2 (group stations "PACKING") ->
  exists r, walk sn stations = Ok r.
Proof.
  intros Hne H1 H2. unfold walk, group in *.
  pose proof (step_vi1_result stations (empty_result sn)) as Hv.
  assert (exists r1, step_vi1 stations (empty_result sn) = Ok r1) as (r1 & ->).
  { destruct (stations !! "VI1") as [vi1|] eqn:E; [|eauto].
    destruct (most_recent_end_uniform k1 vi1) as (e & He); auto.
    - intros ->. by apply (Hne "VI1").
    - by rewrite He in Hv. }
  simpl. pose proof (step_packing_result stations (step_fla stations r1)) as Hp.
  destruct (stations !! "PACKING") as [packing|] eqn:E; [|eauto].
  destruct (most_recent_end_uniform k2 packing) as (e & He); auto.
  - intros ->. by apply (Hne "PACKING").
  - by rewrite He in Hp.
Qed.

(** Only TypeError leaves the walk: the lookups cannot fail. *)
Lemma walk_raises `{iso : Fromisoformat} sn (stations : stations_t) e :
  no_empty_group stations -> walk sn stations = Raise e -> e = TypeError.
Proof.
  intros Hne. unfold walk.
  pose proof (step_vi1_result stations (empty_result sn)) as Hv.
  destruct (step_vi1 stations (empty_result sn)) as [r1|e1] eqn:E1; simpl.
  - pose proof (step_packing_result stations (step_fla stations r1)) as Hp.
    intros H. rewrite H in Hp.
    destruct (stations !! "PACKING") as [packing|] eqn:E; [|discriminate].
    destruct (most_recent_end packing) as [pe|e'] eqn:Ep.
    + destruct Hp as (? & ?). discriminate.
    + injection Hp as <-. apply (most_recent_end_raises packing); auto.
      intros ->. by apply (Hne "PACKING").
  - intros [= <-].
    destruct (stations !! "VI1") as [vi1|] eqn:E; [|discriminate].
    destruct (most_recent_end vi1) as [pe|e'] eqn:Ep.
    + destruct Hv as (? & ?). discriminate.
    + injection Hv as <-. apply (most_recent_end_raises vi1); auto.
      intros ->. by apply (Hne "VI1").
Qed.

(** X1. The extractor returns on every input whose filtered records have
    parsed starts of one kind and parsed ends of one kind (for instance
    when no timestamp carries a zone: missing and unparseable ones parse to
    the naive minimum). *)
Lemma process_raw_timestamps_total `{iso : Fromisoformat} sn hd k1 k2 :
  Forall (fun r => aware (start_key r) = k1 /\ aware (end_key (visit_of r)) = k2)
         (List.filter is_workstation hd) ->
  exists r, process_raw_timestamps sn hd = Ok r.
Proof.
  intros Hall. destruct (List.filter is_workstation hd) as [|x l] eqn:E.
  { exists (empty_result sn). unfold process_raw_timestamps.
    destruct hd; [done|]. by rewrite E. }
  rewrite process_unfold by (rewrite E; discriminate). rewrite E.
  destruct (current_cycle_uniform k1 (x :: l)) as (cycle & Hc).
  { eapply Forall_impl; [exact Hall|]. by intros r [? _]. }
  rewrite Hc. simpl.
  assert (Hends : forall name, uniform end_key k2 (group (build_stations cycle) name)).
  { intros name. rewrite group_build_stations. apply List.Forall_forall.
    intros v Hv. apply visits_named_inv in Hv as (r & Hr & _ & ->).
    apply (current_cycle_incl _ _ _ Hc) in Hr.
    rewrite List.Forall_forall in Hall. by apply Hall. }
  apply (walk_total sn _ k2 k2); auto using build_stations_no_empty.
Qed.

(** X2. No exception other than TypeError leaves the extractor. *)
Lemma process_raw_timestamps_raises `{iso : Fromisoformat} sn hd e :
  process_raw_timestamps sn hd = Raise e -> e = TypeError.
Proof.
  intros H. destruct (List.filter is_workstation hd) as [|x l] eqn:E.
  { unfold process_raw_timestamps in H. destruct hd; [done|]. by rewrite E in H. }
  rewrite process_unfold in H by (rewrite E; discriminate). rewrite E in H.
  destruct (current_cycle (x :: l)) as [cycle|e'] eqn:Ec; simpl in H.
  - eapply walk_raises; eauto using build_stations_no_empty.
  - injection H as <-. by apply current_cycle_raises in Ec.
Qed.

(** ** The display transform *)

(** X11. A parsed timestamp at or after 08:00 of the first day is returned
    as its wall clock moved back by the net four hours, formatted with the
    year as its plain decimal number (four digits from year 1000 on); the
    zone of the string is dropped, not applied. *)
Lemma convert_to_raw_timestamp_parsed `{iso : Fromisoformat} s d :
  s <> "" -> fromisoformat (replace_Z s) = Some d ->
  in_range (wall d) = true -> EIGHT_HOURS <= wall d ->
  convert_to_raw_timestamp s = Ok (strftime (shifted d)).
Proof.
  intros Hs Hd Hr H8. unfold convert_to_raw_timestamp.
  destruct (String.eqb_spec s ""); [done|]. rewrite Hd.
  unfold in_range in Hr. apply andb_prop in Hr as [_ Hmax]. apply Z.ltb_lt in Hmax.
  unfold EIGHT_HOURS in H8.
  unfold add_hours, replace_tzinfo_None, in_range. simpl wall.
  assert (E1 : (0 <=? wall d + -8 * US_PER_HOUR) && (wall d + -8 * US_PER_HOUR <? MAXORDINAL * US_PER_DAY) = true).
  { apply andb_true_intro. split; [apply Z.leb_le|apply Z.ltb_lt]; unfold US_PER_HOUR, US_PER_SECOND in *; lia. }
  rewrite E1. simpl.
  assert (E2 : (0 <=? wall d + -8 * US_PER_HOUR + 4 * US_PER_HOUR)
               && (wall d + -8 * US_PER_HOUR + 4 * US_PER_HOUR <? MAXORDINAL * US_PER_DAY) = true).
  { apply andb_true_intro. split; [apply Z.leb_le|apply Z.ltb_lt]; unfold US_PER_HOUR, US_PER_SECOND in *; lia. }
  rewrite E2. simpl. unfold shifted. do 3 f_equal. lia.
Qed.

Lemma convert_to_raw_timestamp_unparsed `{iso : Fromisoformat} s :
  fromisoformat (replace_Z s) = None -> convert_to_raw_timestamp s = Ok s.
Proof.
  intros Hd. unfold convert_to_raw_timestamp.
  destruct (String.eqb_spec s "") as [->|_]; [done|]. by rewrite Hd.
Qed.

Lemma convert_to_raw_timestamp_overflow `{iso : Fromisoformat} s d :
  s <> "" -> fromisoformat (replace_Z s) = Some d -> wall d < EIGHT_HOURS ->
  convert_to_raw_timestamp s = Raise OverflowError.
Proof.
  intros Hs Hd H8. unfold convert_to_raw_timestamp.
  destruct (String.eqb_spec s ""); [done|]. rewrite Hd.
  unfold add_hours, replace_tzinfo_None, in_range. simpl wall.
  assert (E1 : (0 <=? wall d + -8 * US_PER_HOUR) = false).
  { apply Z.leb_gt. unfold EIGHT_HOURS in H8. lia. }
  by rewrite E1.
Qed.

(** * The claims *)

(** C1 (amended). The end-to-end example: for RECEIVE(T0), VI1(T1..T2),
    UPGRADE(T3..T4), BBD(T5..T6), FLA(T7) with T0 < T1 < ... < T7 in both
    orders the code uses, the order of the strings and the order of the
    parsed times (which are then all naive or all aware), the extractor
    returns vi1End = T2, next station UPGRADE at T3, upgradeEnd = T4, BBD
    from T5 to T6, FLA at T7, and no packing end or shipping start. *)
Theorem C1_end_to_end `{iso : Fromisoformat}
    (sn T0 T1 T2 T3 T4 T5 T6 T7 : string) (receive_end fla_end : option string) :
  ascending [T0; T1; T2; T3; T4; T5; T6; T7] = true ->
  chronological [T0; T1; T2; T3; T4; T5; T6; T7] ->
  process_raw_timestamps sn
    [station_record "RECEIVE" (Some T0) receive_end;
     station_record "VI1" (Some T1) (Some T2);
     station_record "UPGRADE" (Some T3) (Some T4);
     station_record "BBD" (Some T5) (Some T6);
     station_record "FLA" (Some T7) fla_end]
  = Ok {|
      serial_number := sn;
      vi1_end := Some T2;
      vi1_next_station := Some "UPGRADE";
      vi1_next_start := Some T3;
      upgrade_end := Some T4;
      bbd_assy_station := Some "BBD";
      bbd_assy_start := Some T5;
      bbd_assy_end := Some T6;
      fla_chiflash_station := Some "FLA";
      fla_chiflash_start := Some T7;
      packing_end := None;
      shipping_start := None
    |}.
Proof.
  intros Hasc Hchr.
  cbn [ascending] in Hasc.
  repeat (apply andb_prop in Hasc as [? Hasc]).
  cbn [chronological] in Hchr.
  destruct Hchr as (C01 & C12 & C23 & C34 & C45 & C56 & C67 & _).
  pose proof (dt_ge_refl (parse_timestamp (Some T0))) as G0.
  pose proof (dt_lt_ge_trans _ _ _ G0 C01) as G1.
  pose proof (dt_lt_ge_trans _ _ _ G1 C12) as G2.
  pose proof (dt_lt_ge_trans _ _ _ G2 C23) as G3.
  pose proof (dt_lt_ge_trans _ _ _ G3 C34) as G4.
  pose proof (dt_lt_ge_trans _ _ _ G4 C45) as G5.
  pose proof (dt_lt_ge_trans _ _ _ G5 C56) as G6.
  pose proof (dt_lt_ge_trans _ _ _ G6 C67) as G7.
  set (hd := [_; _; _; _; _]).
  rewrite process_unfold by discriminate.
  change (List.filter is_workstation hd) with hd.
  (* the cycle starts at the only RECEIVE and keeps all five records *)
  assert (Hcycle : current_cycle hd = Ok hd).
  { rewrite current_cycle_unfold by discriminate.
    change (List.filter is_receive hd) with [station_record "RECEIVE" (Some T0) receive_end].
    cbn [sorted sorted_onto insort mbind result_bind last_item].
    unfold hd, start_key. cbn [filter_raising history_station_start_time station_record].
    by rewrite G0, G1, G3, G5, G7. }
  rewrite Hcycle. cbn [mbind result_bind].
  unfold walk, step_vi1.
  rewrite build_stations_lookup. run_visits_named.
  cbn [most_recent_end sorted sorted_onto insort mbind result_bind last_item end_].
  rewrite !candidates_of_build. run_visits_named.
  cbn [first_after app].
  rewrite (later_truthy T2 _ T3) by eauto using ltb_nonempty.
  rewrite !pick_one. cbn [fmap option_fmap option_map cand_station cand_start fst snd].
  rewrite bool_decide_eq_true_2 by done.
  unfold getitem. rewrite build_stations_lookup. run_visits_named.
  cbn [mbind result_bind]. unfold find_matching. cbn [List.find start].
  rewrite bool_decide_eq_true_2 by done.
  cbn [end_]. rewrite !candidates_of_build. run_visits_named.
  cbn [first_after app].
  rewrite (later_truthy T4 _ T5) by eauto using ltb_nonempty.
  cbn [app]. rewrite !pick_one. cbn [mbind result_bind].
  (* FLA follows the BBD visit *)
  unfold step_fla.
  cbn [set_bbd_assy bbd_assy_station bbd_assy_end cand_station cand_start cand_end
       fst snd end_].
  rewrite !truthy_Some by (discriminate || eauto using ltb_nonempty).
  cbn [andb]. rewrite !candidates_of_build. run_visits_named.
  cbn [first_after app].
  rewrite (later_truthy T6 _ T7) by eauto using ltb_nonempty.
  cbn [app]. rewrite !pick_one.
  (* no PACKING visit *)
  unfold step_packing. rewrite build_stations_lookup. run_visits_named.
  reflexivity.
Qed.

Lemma C1_witness :
  @process_raw_timestamps fromisoformat_ext "SN1"
    [station_record "RECEIVE" (Some "2024-03-01T08:00:00") None;
     station_record "VI1" (Some "2024-03-01T09:00:00") (Some "2024-03-01T09:30:00");
     station_record "UPGRADE" (Some "2024-03-01T10:00:00") (Some "2024-03-01T11:00:00");
     station_record "BBD" (Some "2024-03-02T07:15:00") (Some "2024-03-02T08:45:00");
     station_record "FLA" (Some "2024-03-03T12:00:00") None]
  = Ok {|
      serial_number := "SN1";
      vi1_end := Some "2024-03-01T09:30:00";
      vi1_next_station := Some "UPGRADE";
      vi1_next_start := Some "2024-03-01T10:00:00";
      upgrade_end := Some "2024-03-01T11:00:00";
      bbd_assy_station := Some "BBD";
      bbd_assy_start := Some "2024-03-02T07:15:00";
      bbd_assy_end := Some "2024-03-02T08:45:00";
      fla_chiflash_station := Some "FLA";
      fla_chiflash_start := Some "2024-03-03T12:00:00";
      packing_end := None;
      shipping_start := None
    |}.
Proof.
  apply (@C1_end_to_end fromisoformat_ext).
  - reflexivity.
  - cbn [chronological]. repeat split; vm_compute; reflexivity.
Defined.

(** C1, as stated, fails when the eight well-formed timestamps increase in
    one of the two orders only.  Written with different offsets they can
    increase in time while the UPGRADE start is not greater than vi1End as
    a string: the scan takes no next station and everything after vi1End
    stays null.  And they can increase as strings while the VI1 and
    UPGRADE visits lie before the RECEIVE in time: the cycle restriction
    drops both and no milestone is populated. *)
Lemma C1_counterexample :
  let in_time :=
    ["2024-03-01T08:00:00+00:00"; "2024-03-01T09:00:00+00:00";
     "2024-03-01T09:30:00+00:00"; "2024-03-01T09:00:00-01:00";
     "2024-03-01T11:00:00+00:00"; "2024-03-02T07:15:00+00:00";
     "2024-03-02T08:45:00+00:00"; "2024-03-03T12:00:00+00:00"] in
  let as_strings :=
    ["2024-03-01T08:00:00-05:00"; "2024-03-01T09:00:00+00:00";
     "2024-03-01T09:30:00+00:00"; "2024-03-01T10:00:00+00:00";
     "2024-03-01T11:00:00+00:00"; "2024-03-02T07:15:00+00:00";
     "2024-03-02T08:45:00+00:00"; "2024-03-03T12:00:00+00:00"] in
  (Forall (fun t => is_Some (fromisoformat_ext (replace_Z t))) in_time /\
   @chronological fromisoformat_ext in_time /\
   ascending in_time = false /\
   @process_raw_timestamps fromisoformat_ext "SN1"
     [station_record "RECEIVE" (Some "2024-03-01T08:00:00+00:00") None;
      station_record "VI1" (Some "2024-03-01T09:00:00+00:00")
                           (Some "2024-03-01T09:30:00+00:00");
      station_record "UPGRADE" (Some "2024-03-01T09:00:00-01:00")
                               (Some "2024-03-01T11:00:00+00:00");
      station_record "BBD" (Some "2024-03-02T07:15:00+00:00")
                           (Some "2024-03-02T08:45:00+00:00");
      station_record "FLA" (Some "2024-03-03T12:00:00+00:00") None]
   = Ok (set_vi1_end (empty_result "SN1") (Some "2024-03-01T09:30:00+00:00"))) /\
  (Forall (fun t => is_Some (fromisoformat_ext (replace_Z t))) as_strings /\
   ascending as_strings = true /\
   ~ @chronological fromisoformat_ext as_strings /\
   @process_raw_timestamps fromisoformat_ext "SN1"
     [station_record "RECEIVE" (Some "2024-03-01T08:00:00-05:00") None;
      station_record "VI1" (Some "2024-03-01T09:00:00+00:00")
                           (Some "2024-03-01T09:30:00+00:00");
      station_record "UPGRADE" (Some "2024-03-01T10:00:00+00:00")
                               (Some "2024-03-01T11:00:00+00:00");
      station_record "BBD" (Some "2024-03-02T07:15:00+00:00")
                           (Some "2024-03-02T08:45:00+00:00");
      station_record "FLA" (Some "2024-03-03T12:00:00+00:00") None]
   = Ok (empty_result "SN1")).
Proof.
  intros in_time as_strings. split.
  - split; [|split; [|split]].
    + unfold in_time. repeat (apply List.Forall_cons; [vm_compute; by eexists|]). apply List.Forall_nil.
    + cbn [chronological]. repeat split; by vm_compute.
    + reflexivity.
    + by vm_compute.
  - split; [|split; [|split]].
    + unfold as_strings. repeat (apply List.Forall_cons; [vm_compute; by eexists|]). apply List.Forall_nil.
    + reflexivity.
    + cbn [chronological]. intros [H _]. by vm_compute in H.
    + by vm_compute.
Qed.

(** C2. Without a filtered RECEIVE record the working set is the whole
    filtered list.  With one, the boundary is the last RECEIVE record after
    the stable ascending sort by parsed start time (missing and unparseable
    starts parse to [datetime_min]), and the working set, from which the
    milestones are derived, is exactly the filtered records whose parsed
    start is at or after the boundary's.  In particular a VI1 visit that
    starts before a later RECEIVE is outside the working set, and the
    result is the one of the input without that visit. *)
Theorem C2_cycle_boundary `{iso : Fromisoformat} (sn : string) (history_data : list record) :
  let workstation_data := List.filter is_workstation history_data in
  let receive_records := List.filter is_receive workstation_data in
  (forall r, history_station_start_time r = None \/
             history_station_start_time r = Some "" \/
             (exists s, history_station_start_time r = Some s /\
                        fromisoformat (replace_Z s) = None) ->
             start_key r = datetime_min) /\
  (receive_records = [] -> current_cycle workstation_data = Ok workstation_data) /\
  (receive_records <> [] ->
   forall cycle, current_cycle workstation_data = Ok cycle ->
   exists sorted_receives boundary,
     sorted start_key receive_records = Ok sorted_receives /\
     Permutation receive_records sorted_receives /\
     StronglySorted (key_le start_key) sorted_receives /\
     last_item sorted_receives = Ok boundary /\
     Forall (fun r => dt_ge (start_key r) (start_key boundary)
                      = Ok (at_or_after start_key (start_key boundary) r))
            workstation_data /\
     cycle = List.filter (at_or_after start_key (start_key boundary)) workstation_data) /\
  (forall k, uniform start_key k workstation_data ->
             exists cycle, current_cycle workstation_data = Ok cycle) /\
  (workstation_data <> [] ->
   process_raw_timestamps sn history_data =
   (cycle ← current_cycle workstation_data; walk sn (build_stations cycle))) /\
  (forall l1 v l2 r2,
     history_data = (l1 ++ v :: l2)%list ->
     is_workstation v = true -> workstation_name v = Some "VI1" ->
     In r2 history_data -> is_workstation r2 = true -> is_receive r2 = true ->
     dt_lt (start_key v) (start_key r2) = Ok true ->
     (forall cycle, current_cycle workstation_data = Ok cycle -> ~ In v cycle) /\
     process_raw_timestamps sn history_data = process_raw_timestamps sn (l1 ++ l2)).
Proof.
  intros wd rc. split.
  { intros r [Hr|[Hr|(s & Hr & Hs)]]; unfold start_key, parse_timestamp; rewrite Hr;
      [done|done|]. rewrite Hs. by destruct (String.eqb s ""). }
  split; [apply current_cycle_no_receive|].
  split.
  { intros Hne cycle Hc.
    destruct (current_cycle_Ok _ _ Hne Hc) as (s & b & Hs & Hp & Hss & Hb & Hu & ->).
    exists s, b. repeat split; auto.
    eapply Forall_impl; [exact Hu|]. simpl. intros r Hr.
    unfold dt_ge. by rewrite dt_cmp_same. }
  split; [intros k Hk; exact (current_cycle_uniform k wd Hk)|].
  split; [apply process_unfold|].
  intros l1 v l2 r2 -> Hwv Hnv Hin Hwr Hrr Hlt.
  assert (Hv : is_receive v = false).
  { unfold is_receive. rewrite Hnv. by apply bool_decide_eq_false_2. }
  assert (Hin' : In r2 (l1 ++ l2)).
  { apply in_app_or in Hin as [Hin|[->|Hin]]; [apply in_or_app; auto| |apply in_or_app; auto].
    congruence. }
  split; [|by apply (earlier_record_ignored sn l1 l2 v r2)].
  intros cycle Hc Hvc.
  assert (Hr2 : In r2 rc).
  { apply filter_In; split; auto. apply filter_In; split; auto. }
  apply current_cycle_Ok in Hc as (s & b & Hs & Hp & Hss & Hb & Hu & ->);
    [|intros E; fold rc in E; rewrite E in Hr2; inversion Hr2].
  apply filter_In in Hvc as [_ Hge].
  assert (Hle : key_le start_key r2 b).
  { eapply last_item_greatest; eauto. by rewrite <- Hp. }
  apply dt_cmp_Ok in Hlt as [_ Hlt]. symmetry in Hlt. apply Z.ltb_lt in Hlt.
  unfold at_or_after in Hge. rewrite Z.geb_leb in Hge. apply Z.leb_le in Hge.
  unfold key_le in Hle. lia.
Qed.

Lemma C2_witness :
  let r1 := station_record "RECEIVE" (Some "2024-01-05T08:00:00") None in
  let v := station_record "VI1" (Some "2024-01-06T09:00:00") (Some "2024-01-06T09:30:00") in
  let r2 := station_record "RECEIVE" (Some "2024-02-10T08:00:00") None in
  let v' := station_record "VI1" (Some "2024-02-11T10:00:00") (Some "2024-02-11T10:20:00") in
  @current_cycle fromisoformat_ext [r1; v; r2; v'] = Ok [r2; v'] /\
  ~ In v [r2; v'] /\
  @process_raw_timestamps fromisoformat_ext "SN2" [r1; v; r2; v'] =
  @process_raw_timestamps fromisoformat_ext "SN2" [r1; r2; v'] /\
  vi1_end <$> @process_raw_timestamps fromisoformat_ext "SN2" [r1; v; r2; v'] =
  Ok (Some "2024-02-11T10:20:00").
Proof.
  intros r1 v r2 v'.
  destruct (@C2_cycle_boundary fromisoformat_ext "SN2" [r1; v; r2; v'])
    as (_ & _ & _ & _ & _ & Hiso).
  destruct (Hiso [r1] v [r2; v'] r2) as [Hout Heq];
    [reflexivity|reflexivity|reflexivity|right; right; by left
    |reflexivity|reflexivity|by vm_compute|].
  assert (Hc : @current_cycle fromisoformat_ext [r1; v; r2; v'] = Ok [r2; v'])
    by (by vm_compute).
  split; [exact Hc|].
  split; [exact (Hout _ Hc)|].
  split; [exact Heq|].
  by vm_compute.
Defined.

(** C3 fails on the code: the minimum that stands for a missing or
    unparseable timestamp is a naive datetime, and comparing it with the
    aware datetime of a timestamp written with a zone raises TypeError. *)
Theorem C3_missing_start_against_zoned_raises :
  @process_raw_timestamps fromisoformat_ext "SN3"
    [station_record "RECEIVE" (Some "2024-01-01T00:00:00Z") None;
     station_record "VI1" None None]
  = Raise TypeError.
Proof. by vm_compute. Qed.

(** C4 (amended). With VI1 present and a vi1End that is neither null nor the
    empty string, the candidate of Disassembly and the candidate of UPGRADE
    are each the first visit in original order whose start is strictly
    greater than vi1End, and vi1NextStation/vi1NextStart are those of the
    candidate with the smallest start, Disassembly on equal starts. *)
Theorem C4_next_station `{iso : Fromisoformat}
    (sn : string) (cycle : list record) (r : milestones) (e : string) :
  walk sn (build_stations cycle) = Ok r ->
  vi1_end r = Some e -> e <> "" ->
  let d := first_starting_after e (visits_named "Disassembly" cycle) in
  let u := first_starting_after e (visits_named "UPGRADE" cycle) in
  vi1_next_station r = fst <$> earliest_of "Disassembly" "UPGRADE" d u /\
  vi1_next_start r = earliest_of "Disassembly" "UPGRADE" d u ≫= snd.
Proof.
  intros Hw He Hne d u. pose proof (walk_vi1_part _ _ _ Hw) as Hp.
  destruct (build_stations cycle !! "VI1") as [vi1|].
  - destruct Hp as (_ & Hn & Hs & _). rewrite He in Hn, Hs.
    pose proof (next_candidates_truthy cycle e Hne) as Hspec.
    fold d u in Hspec. rewrite <- Hspec, Hn, Hs.
    by destruct (pick _).
  - unfold vi1_fields in Hp. simpl in Hp. congruence.
Qed.

Lemma C4_witness :
  let tie := [station_record "VI1" (Some "2024-05-01T08:00:00") (Some "2024-05-01T09:00:00");
              station_record "UPGRADE" (Some "2024-05-01T08:30:00") None;
              station_record "UPGRADE" (Some "2024-05-01T10:00:00") None;
              station_record "Disassembly" (Some "2024-05-01T10:00:00") None;
              station_record "UPGRADE" (Some "2024-05-01T09:30:00") None] in
  exists r, @walk fromisoformat_ext "SN4" (build_stations tie) = Ok r /\
            vi1_next_station r = Some "Disassembly" /\
            vi1_next_start r = Some "2024-05-01T10:00:00".
Proof.
  intros tie.
  destruct (@walk fromisoformat_ext "SN4" (build_stations tie)) as [r|e] eqn:E;
    [|by vm_compute in E].
  exists r. split; [reflexivity|].
  apply (@C4_next_station fromisoformat_ext "SN4" tie r "2024-05-01T09:00:00" E).
  - vm_compute in E. by injection E as <-.
  - discriminate.
Defined.

(** C4, as stated, fails for a vi1End that is the empty string: it is not
    null and the UPGRADE visit starts after it, yet no candidate is taken. *)
Lemma C4_counterexample :
  let cycle := [station_record "VI1" (Some "2024-05-01T08:00:00") (Some "");
                station_record "UPGRADE" (Some "2024-05-01T10:00:00") None] in
  exists r, @walk fromisoformat_ext "SN4" (build_stations cycle) = Ok r /\
            vi1_end r = Some "" /\
            earliest_of "Disassembly" "UPGRADE"
              (first_starting_after "" (visits_named "Disassembly" cycle))
              (first_starting_after "" (visits_named "UPGRADE" cycle))
            = Some ("UPGRADE", Some "2024-05-01T10:00:00") /\
            vi1_next_station r = None /\ vi1_next_start r = None.
Proof.
  intros cycle. eexists. split; [by vm_compute|]. by vm_compute.
Qed.

(** C5 (amended). Every record of the working set, whatever its start and
    end, is listed in the group of its station.  A milestone that is taken
    from a scanned visit is taken from a visit whose start is present and
    not empty, so a visit without a start is never selected: the scan steps
    over it. *)
Theorem C5_missing_times `{iso : Fromisoformat}
    (sn : string) (history_data cycle : list record) (r : milestones) :
  current_cycle (List.filter is_workstation history_data) = Ok cycle ->
  walk sn (build_stations cycle) = Ok r ->
  (forall rec, In rec cycle ->
     exists name visits,
       workstation_name rec = Some name /\
       build_stations cycle !! name = Some visits /\
       In (visit_of rec) visits) /\
  (forall st, vi1_next_station r = Some st ->
     exists t s, In t (visits_named st cycle) /\ start t = Some s /\ s <> "" /\
                 vi1_next_start r = Some s) /\
  (forall st, bbd_assy_station r = Some st ->
     exists t s, In t (visits_named st cycle) /\ start t = Some s /\ s <> "" /\
                 bbd_assy_start r = Some s /\ bbd_assy_end r = end_ t) /\
  (forall st, fla_chiflash_station r = Some st ->
     exists t s, In t (visits_named st cycle) /\ start t = Some s /\ s <> "" /\
                 fla_chiflash_start r = Some s) /\
  (forall s, shipping_start r = Some s ->
     s <> "" /\ exists t, In t (visits_named "SHIPPING" cycle) /\ start t = Some s) /\
  (forall bound t rest, truthy (start t) = false ->
     first_after bound (t :: rest) = first_after bound rest).
Proof.
  intros Hc Hw. split.
  { intros rec Hin.
    pose proof (current_cycle_incl _ _ _ Hc Hin) as Hwd.
    apply filter_In in Hwd as [_ Hws]. unfold is_workstation in Hws.
    apply andb_prop in Hws as [_ Hname].
    destruct (workstation_name rec) as [name|] eqn:En; [|discriminate].
    pose proof (visits_named_In name cycle rec Hin En) as Hv.
    exists name, (visits_named name cycle). split; [done|]. split; [|done].
    rewrite build_stations_lookup. by destruct (visits_named name cycle). }
  pose proof (walk_vi1_part _ _ _ Hw) as Hv.
  pose proof (walk_fla_part _ _ _ Hw) as Hf.
  pose proof (walk_packing_part _ _ _ Hw) as Hp.
  split; [|split; [|split; [|split]]].
  5:{ intros bound t rest Ht. simpl. unfold later.
      destruct (start t) as [s|]; [|done]. simpl in Ht.
      apply negb_false_iff in Ht. rewrite Ht. by destruct bound. }
  - intros st Hst. destruct (build_stations cycle !! "VI1") as [vi1|].
    + destruct Hv as (_ & Hn & Hs & _). rewrite Hst in Hn.
      destruct (pick (next_candidates _ _)) as [c|] eqn:Epick; [|discriminate].
      injection Hn as ->.
      destruct (picked_visit _ _ _ (next_candidates_from _ _) Epick)
        as (t & Hin & Hts & Hne & _).
      rewrite group_build_stations in Hin. exists t, (cand_start c). auto.
    + unfold vi1_fields in Hv. simpl in Hv. congruence.
  - intros st Hst. destruct (build_stations cycle !! "VI1") as [vi1|].
    + destruct Hv as (_ & _ & _ & [(_ & ups & m & _ & _ & _ & Hb1 & Hb2 & Hb3)|(_ & _ & Hb & _)]);
        [|congruence].
      rewrite Hst in Hb1.
      destruct (pick (bbd_candidates _ _)) as [c|] eqn:Epick; [|discriminate].
      injection Hb1 as ->.
      destruct (picked_visit _ _ _ (bbd_candidates_from _ _) Epick)
        as (t & Hin & Hts & Hne & He).
      rewrite group_build_stations in Hin. exists t, (cand_start c).
      simpl in Hb3. rewrite Hb3, He. auto.
    + unfold vi1_fields in Hv. simpl in Hv. congruence.
  - intros st Hst. unfold fla_fields in Hf.
    destruct (_ && _); [|congruence].
    injection Hf as Hf1 Hf2. rewrite Hst in Hf1.
    destruct (pick (fla_candidates _ _)) as [c|] eqn:Epick; [|discriminate].
    injection Hf1 as ->.
    destruct (picked_visit _ _ _ (fla_candidates_from _ _) Epick)
      as (t & Hin & Hts & Hne & _).
    rewrite group_build_stations in Hin. exists t, (cand_start c). auto.
  - intros s Hs. destruct (build_stations cycle !! "PACKING") as [packing|].
    + destruct Hp as [_ Hsh]. rewrite Hs in Hsh.
      destruct (first_after _ _) as [[s' t]|] eqn:Ef; [|discriminate].
      injection Hsh as ->.
      destruct (first_after_Some _ _ _ _ Ef) as [Hlater Hfirst].
      apply later_Some in Hlater as (Hts & Hne & _).
      split; [done|]. exists t. split; [|done].
      rewrite <- group_build_stations. eapply first_such_In, Hfirst.
    + destruct Hp as [_ Hsh]. congruence.
Qed.

Lemma C5_witness :
  let v := station_record "VI1" None (Some "2024-05-01T09:00:00") in
  let hd := [v; station_record "UPGRADE" (Some "2024-05-01T10:00:00") None] in
  exists visits,
    build_stations hd !! "VI1" = Some visits /\
    In {| start := None; end_ := Some "2024-05-01T09:00:00" |} visits.
Proof.
  intros v hd.
  destruct (@walk fromisoformat_ext "SN5" (build_stations hd)) as [r|e] eqn:E;
    [|by vm_compute in E].
  destruct (@C5_missing_times fromisoformat_ext "SN5" hd hd r eq_refl E) as (Hg & _).
  destruct (Hg v) as (name & visits & Hn & Hl & Hin); [by left|].
  injection Hn as <-. exists visits. split; [exact Hl|exact Hin].
Defined.

(** C5, as stated, fails twice.  A filtered VI1 record without a start lies
    before the RECEIVE boundary and is in no group; and an UPGRADE visit
    without an end is selected as the next station. *)
Lemma C5_counterexample :
  (let v := station_record "VI1" None (Some "2024-05-01T09:00:00") in
   let hd := [station_record "RECEIVE" (Some "2024-05-01T08:00:00") None; v] in
   In v (List.filter is_workstation hd) /\
   exists cycle,
     @current_cycle fromisoformat_ext (List.filter is_workstation hd) = Ok cycle /\
     build_stations cycle !! "VI1" = None) /\
  (let u := station_record "UPGRADE" (Some "2024-05-01T10:00:00") None in
   let hd := [station_record "VI1" (Some "2024-05-01T08:00:00") (Some "2024-05-01T09:00:00"); u] in
   history_station_end_time u = None /\
   exists r,
     @process_raw_timestamps fromisoformat_ext "SN5" hd = Ok r /\
     vi1_next_station r = workstation_name u /\
     vi1_next_start r = history_station_start_time u).
Proof.
  split.
  - intros v hd. split; [right; by left|]. eexists. split; by vm_compute.
  - intros u hd. split; [reflexivity|]. eexists. split; by vm_compute.
Qed.

(** C6 (amended). If PACKING has visits, packingEnd is the end of the
    PACKING visit that is last after the ascending sort by parsed end,
    whatever the earlier milestones are; shippingStart is populated only
    when packingEnd is neither null nor the empty string, and is then the
    start of the first SHIPPING visit in original order whose start is
    strictly greater than packingEnd; SHIPPING visits that start at or
    before packingEnd are ignored. *)
Theorem C6_packing_and_shipping `{iso : Fromisoformat}
    (sn : string) (cycle : list record) (r : milestones) :
  walk sn (build_stations cycle) = Ok r ->
  let packing := visits_named "PACKING" cycle in
  let shipping := visits_named "SHIPPING" cycle in
  (packing <> [] ->
   exists sorted_visits v,
     sorted end_key packing = Ok sorted_visits /\
     Permutation packing sorted_visits /\
     StronglySorted (key_le end_key) sorted_visits /\
     last_item sorted_visits = Ok v /\
     packing_end r = end_ v) /\
  (packing = [] -> packing_end r = None /\ shipping_start r = None) /\
  (forall s, shipping_start r = Some s ->
             exists p, packing_end r = Some p /\ p <> "") /\
  (forall p, packing_end r = Some p -> p <> "" ->
             shipping_start r = first_starting_after p shipping ≫= start) /\
  (forall p, packing_end r = Some p ->
             Forall (fun t => starts_after p t = false) shipping ->
             shipping_start r = None).
Proof.
  intros Hw packing shipping. pose proof (walk_packing_part _ _ _ Hw) as Hp.
  rewrite build_stations_lookup, group_build_stations in Hp.
  fold packing shipping in Hp.
  destruct packing as [|v0 vs] eqn:E.
  { destruct Hp as [-> ->]. repeat split; try done. }
  destruct Hp as [Hpe Hs]. split; [|split; [done|]].
  { intros _. apply most_recent_end_Ok in Hpe as (sv & v & H1 & H2 & H3 & H4 & H5).
    exists sv, v. auto. }
  split; [|split].
  - intros s Hss. rewrite Hss in Hs.
    destruct (first_after (packing_end r) shipping) as [[s' t]|] eqn:Ef; [|discriminate].
    apply first_after_Some in Ef as [Hl _].
    apply later_Some in Hl as (_ & _ & b & Hb & Hne & _). eauto.
  - intros p Hpp Hne. rewrite Hs, Hpp, first_after_truthy by done.
    destruct (first_starting_after p shipping) as [t|] eqn:Et; [|done].
    destruct (first_starting_after_start _ _ _ Et) as (s & Hst). by rewrite Hst.
  - intros p Hpp Hall. by rewrite Hs, Hpp, first_after_none_after.
Qed.

Lemma C6_witness :
  let cycle := [station_record "SHIPPING" (Some "2024-06-02T08:00:00") None;
                station_record "PACKING" (Some "2024-06-01T08:00:00") (Some "2024-06-03T09:00:00");
                station_record "PACKING" (Some "2024-06-02T08:00:00") (Some "2024-06-02T09:00:00");
                station_record "SHIPPING" (Some "2024-06-04T08:00:00") None;
                station_record "SHIPPING" (Some "2024-06-03T10:00:00") None] in
  exists r, @walk fromisoformat_ext "SN6" (build_stations cycle) = Ok r /\
            packing_end r = Some "2024-06-03T09:00:00" /\
            shipping_start r = Some "2024-06-04T08:00:00".
Proof.
  intros cycle.
  destruct (@walk fromisoformat_ext "SN6" (build_stations cycle)) as [r|e] eqn:E;
    [|by vm_compute in E].
  exists r. split; [reflexivity|].
  assert (Hp : packing_end r = Some "2024-06-03T09:00:00")
    by (vm_compute in E; by injection E as <-).
  split; [exact Hp|].
  destruct (@C6_packing_and_shipping fromisoformat_ext "SN6" cycle r E)
    as (_ & _ & _ & Hs & _).
  apply (Hs _ Hp). discriminate.
Defined.

(** C6, as stated, fails for a packingEnd that is the empty string: it is
    not null and the SHIPPING visit starts after it, yet shippingStart stays
    null. *)
Lemma C6_counterexample :
  let cycle := [station_record "PACKING" (Some "2024-06-01T08:00:00") (Some "");
                station_record "SHIPPING" (Some "2024-06-04T08:00:00") None] in
  exists r, @walk fromisoformat_ext "SN6" (build_stations cycle) = Ok r /\
            packing_end r = Some "" /\
            first_starting_after "" (visits_named "SHIPPING" cycle) ≫= start
            = Some "2024-06-04T08:00:00" /\
            shipping_start r = None.
Proof.
  intros cycle. eexists. split; [by vm_compute|]. by vm_compute.
Qed.

(** C7. upgradeEnd is populated only when the next station is UPGRADE, and
    then it is the end of the first UPGRADE visit, in original order, whose
    start equals vi1NextStart; when the next station is Disassembly or
    null, upgradeEnd and the three BBD/ASSY1 fields stay null. *)
Theorem C7_upgrade_end `{iso : Fromisoformat}
    (sn : string) (history_data : list record) (r : milestones) :
  process_raw_timestamps sn history_data = Ok r ->
  (upgrade_end r <> None -> vi1_next_station r = Some "UPGRADE") /\
  (vi1_next_station r = Some "UPGRADE" ->
   exists cycle m,
     current_cycle (List.filter is_workstation history_data) = Ok cycle /\
     first_such (fun u => start u = vi1_next_start r) (visits_named "UPGRADE" cycle) m /\
     upgrade_end r = end_ m) /\
  (vi1_next_station r = Some "Disassembly" \/ vi1_next_station r = None ->
   upgrade_end r = None /\ bbd_assy_station r = None /\
   bbd_assy_start r = None /\ bbd_assy_end r = None).
Proof.
  intros H. apply process_Ok in H as [[_ ->]|(cycle & Hc & Hw)].
  { repeat split; auto; simpl; congruence. }
  pose proof (walk_vi1_part _ _ _ Hw) as Hp.
  destruct (build_stations cycle !! "VI1") as [vi1|].
  - destruct Hp as (_ & _ & _ & [(Hn & ups & m & Hu & Hm & He & _)|(Hne & Hue & Hb)]).
    + split; [auto|]. split.
      * intros _. exists cycle, m. repeat split; auto.
        rewrite <- group_build_stations. unfold group. rewrite Hu.
        by apply find_matching_Some.
      * rewrite Hn. intros [?|?]; discriminate.
    + split; [congruence|]. split; [done|]. auto.
  - unfold vi1_fields in Hp. simpl in Hp.
    injection Hp as _ _ Hn _ Hue Hb1 Hb2 Hb3. rewrite Hn, Hue, Hb1, Hb2, Hb3.
    repeat split; auto; congruence.
Qed.

Lemma C7_witness :
  let shared := [station_record "VI1" (Some "2024-05-01T08:00:00") (Some "2024-05-01T09:00:00");
                 station_record "UPGRADE" (Some "2024-05-01T10:00:00") (Some "2024-05-01T11:00:00");
                 station_record "UPGRADE" (Some "2024-05-01T10:00:00") (Some "2024-05-01T12:00:00")] in
  let dis := [station_record "VI1" (Some "2024-05-01T08:00:00") (Some "2024-05-01T09:00:00");
              station_record "Disassembly" (Some "2024-05-01T09:30:00") (Some "2024-05-01T09:45:00");
              station_record "UPGRADE" (Some "2024-05-01T10:00:00") (Some "2024-05-01T11:00:00");
              station_record "BBD" (Some "2024-05-01T13:00:00") (Some "2024-05-01T14:00:00")] in
  (upgrade_end <$> @process_raw_timestamps fromisoformat_ext "SN7" shared) =
    Ok (Some "2024-05-01T11:00:00") /\
  (exists r, @process_raw_timestamps fromisoformat_ext "SN7" dis = Ok r /\
             vi1_next_station r = Some "Disassembly" /\
             upgrade_end r = None /\ bbd_assy_station r = None /\
             bbd_assy_start r = None /\ bbd_assy_end r = None).
Proof.
  intros shared dis. split; [by vm_compute|].
  destruct (@process_raw_timestamps fromisoformat_ext "SN7" dis) as [r|e] eqn:E;
    [|by vm_compute in E].
  exists r. split; [reflexivity|].
  assert (Hn : vi1_next_station r = Some "Disassembly")
    by (vm_compute in E; by injection E as <-).
  split; [exact Hn|].
  destruct (@C7_upgrade_end fromisoformat_ext "SN7" dis r E) as (_ & _ & Hd).
  apply Hd. by left.
Defined.



(** C9 fails on the code for a wall-clock time in the first eight hours of
    year 1, such as the minimum date that serializers emit for an unset
    value: subtracting eight hours leaves the range of datetime, and
    OverflowError is not among the exceptions the function catches. *)
Theorem C9_first_hours_overflow :
  @convert_to_raw_timestamp fromisoformat_ext "0001-01-01T00:00:00" = Raise OverflowError.
Proof. by vm_compute. Qed.



(** * Further properties *)

(** ** The order of str *)

Lemma compare_as_OT a b : String.compare a b = OrdersEx.String_as_OT.compare a b.
Proof. revert b. induction a; intros []; reflexivity || (simpl; by rewrite IHa). Qed.

Lemma ltb_lt a b : String.ltb a b = true <-> OrdersEx.String_as_OT.lt a b.
Proof.
  unfold String.ltb, OrdersEx.String_as_OT.lt. rewrite compare_as_OT.
  destruct (OrdersEx.String_as_OT.compare a b); split; congruence.
Qed.

Lemma ltb_trans a b c :
  String.ltb a b = true -> String.ltb b c = true -> String.ltb a c = true.
Proof.
  rewrite !ltb_lt. apply (@StrictOrder_Transitive _ _ OrdersEx.String_as_OT.lt_strorder).
Qed.

Lemma ltb_ge_cases a b : String.ltb b a = false -> a = b \/ String.ltb a b = true.
Proof.
  intros H. destruct (OrdersEx.String_as_OT.compare_spec a b) as [E|E|E]; auto.
  - right. by apply ltb_lt.
  - apply ltb_lt in E. congruence.
Qed.

Lemma ltb_lt_ge_trans a b c :
  String.ltb a b = true -> String.ltb c b = false -> String.ltb a c = true.
Proof.
  intros Hab Hcb. destruct (ltb_ge_cases _ _ Hcb) as [<-|Hbc]; [done|].
  by apply (ltb_trans a b c).
Qed.

(** ** The candidate that wins *)

Lemma fold_insert_head (l : list candidate) m acc :
  exists acc',
    List.fold_left (fun a x => insert_by cand_start x a) l (m :: acc)
    = running_min m l :: acc'.
Proof.
  revert m acc. induction l as [|x l IH]; intros m acc; simpl; [eauto|].
  destruct (String.ltb (cand_start x) (cand_start m)); apply IH.
Qed.

Lemma pick_running_min c l : pick (c :: l) = Some (running_min c l).
Proof.
  unfold pick, sort_by. simpl.
  destruct (fold_insert_head l c []) as (acc' & ->). reflexivity.
Qed.

Lemma running_min_snoc m l x :
  running_min m (l ++ [x]) =
  if String.ltb (cand_start x) (cand_start (running_min m l)) then x
  else running_min m l.
Proof. unfold running_min. by rewrite fold_left_app. Qed.

Lemma running_min_earliest m l : earliest (m :: l) (running_min m l).
Proof.
  induction l as [|x l IH] using rev_ind.
  - exists [], []. repeat split; constructor.
  - rewrite running_min_snoc.
    destruct IH as (l1 & l2 & E & H1 & H2).
    destruct (String.ltb (cand_start x) (cand_start (running_min m l))) eqn:Ex.
    + exists (m :: l), []. split; [by rewrite app_comm_cons|]. split; [|constructor].
      rewrite E. apply Forall_app. split; [|constructor].
      * eapply Forall_impl; [exact H1|]. simpl. intros y Hy.
        by apply (ltb_trans _ _ _ Ex).
      * exact Ex.
      * eapply Forall_impl; [exact H2|]. simpl. intros y Hy.
        by apply (ltb_lt_ge_trans _ _ _ Ex).
    + exists l1, (l2 ++ [x])%list. split.
      * rewrite app_comm_cons, E. by rewrite <- app_assoc.
      * split; [exact H1|]. apply Forall_app. split; [exact H2|].
        by constructor.
Qed.

(** [candidates.sort(key=...)] followed by [candidates[0]] takes a candidate
    of smallest start and, of several with that start, the first. *)
Lemma pick_earliest candidates w : pick candidates = Some w -> earliest candidates w.
Proof.
  destruct candidates as [|c l]; [discriminate|].
  rewrite pick_running_min. intros [= <-]. apply running_min_earliest.
Qed.

Lemma candidates_of_after cycle name e :
  e <> "" ->
  candidates_of (build_stations cycle) name (Some e) = candidate_after e cycle name.
Proof.
  intros He. rewrite candidates_of_build, first_after_truthy by done.
  unfold candidate_after.
  destruct (first_starting_after e (visits_named name cycle)) as [t|]; [|done].
  by destruct (start t).
Qed.

Lemma candidates_of_falsy (stations : stations_t) name bound :
  truthy bound = false -> candidates_of stations name bound = [].
Proof.
  intros Hb. unfold candidates_of. destruct (stations !! name); [|done].
  by rewrite first_after_falsy.
Qed.

(** ** Where a candidate comes from *)

Lemma candidates_of_bound (stations : stations_t) name bound c :
  In c (candidates_of stations name bound) ->
  cand_station c = name /\ cand_start c <> "" /\
  exists b, bound = Some b /\ b <> "" /\ String.ltb b (cand_start c) = true.
Proof.
  intros H. apply candidates_of_In in H as (Hn & visits & t & _ & Hf & _).
  apply first_after_Some in Hf as [Hl _].
  apply later_Some in Hl as (_ & Hne & Hb). auto.
Qed.

Lemma picked_bound (candidates : list candidate) (names : list string) bound c :
  (forall c', In c' candidates -> exists (stations : stations_t) name,
     In name names /\ In c' (candidates_of stations name bound)) ->
  pick candidates = Some c ->
  In (cand_station c) names /\ cand_start c <> "" /\
  exists b, bound = Some b /\ b <> "" /\ String.ltb b (cand_start c) = true.
Proof.
  intros Hall Hp. apply pick_In in Hp.
  destruct (Hall _ Hp) as (stations & name & Hname & Hin).
  apply candidates_of_bound in Hin as (<- & H). auto.
Qed.

Lemma next_candidates_names (stations : stations_t) bound c :
  In c (next_candidates stations bound) ->
  exists (stations' : stations_t) name,
    In name ["Disassembly"; "UPGRADE"] /\ In c (candidates_of stations' name bound).
Proof.
  intros H. apply in_app_or in H as [H|H]; exists stations; eexists; split; eauto;
    simpl; auto.
Qed.

Lemma bbd_candidates_names (stations : stations_t) bound c :
  In c (bbd_candidates stations bound) ->
  exists (stations' : stations_t) name,
    In name ["BBD"; "ASSY1"; "Assembley"] /\ In c (candidates_of stations' name bound).
Proof.
  intros H. apply in_app_or in H as [H|H]; [|apply in_app_or in H as [H|H]];
    exists stations; eexists; split; eauto; simpl; auto.
Qed.

Lemma fla_candidates_names (stations : stations_t) bound c :
  In c (fla_candidates stations bound) ->
  exists (stations' : stations_t) name,
    In name ["FLA"; "CHIFLASH"] /\ In c (candidates_of stations' name bound).
Proof.
  intros H. apply in_app_or in H as [H|H]; exists stations; eexists; split; eauto;
    simpl; auto.
Qed.

Lemma bbd_candidates_after cycle e :
  e <> "" ->
  bbd_candidates (build_stations cycle) (Some e) =
  candidates_after e cycle ["BBD"; "ASSY1"; "Assembley"].
Proof.
  intros He. unfold bbd_candidates, candidates_after. simpl.
  rewrite !candidates_of_after by done. by rewrite app_nil_r.
Qed.

Lemma fla_candidates_after cycle e :
  e <> "" ->
  fla_candidates (build_stations cycle) (Some e) =
  candidates_after e cycle ["FLA"; "CHIFLASH"].
Proof.
  intros He. unfold fla_candidates, candidates_after. simpl.
  rewrite !candidates_of_after by done. by rewrite app_nil_r.
Qed.

Lemma walk_serial_number `{iso : Fromisoformat} sn (stations : stations_t) r :
  walk sn stations = Ok r -> serial_number r = sn.
Proof.
  intros H. apply walk_Ok in H as (r1 & H1 & _ & Hf).
  unfold vi1_fields in Hf. injection Hf as -> _ _ _ _ _ _ _.
  destruct (stations !! "VI1") as [vi1|] eqn:E.
  - by destruct (step_vi1_present _ _ _ _ E H1) as (_ & _ & -> & _).
  - rewrite step_vi1_absent in H1 by done. by injection H1 as <-.
Qed.

(** ** The BBD/ASSY1 and FLA/CHIFLASH steps *)

(** X3. After an UPGRADE that ended at a non-empty [e], the BBD/ASSY1 milestone
    is taken from the first visits after [e] of BBD, ASSY1 and Assembley:
    the one with the smallest start, and on equal starts the station
    enumerated first; without any such visit the three fields stay null. *)
Theorem bbd_assy_selection `{iso : Fromisoformat}
    (sn : string) (cycle : list record) (r : milestones) (e : string) :
  walk sn (build_stations cycle) = Ok r ->
  upgrade_end r = Some e -> e <> "" ->
  let candidates := candidates_after e cycle ["BBD"; "ASSY1"; "Assembley"] in
  (candidates = [] ->
   bbd_assy_station r = None /\ bbd_assy_start r = None /\ bbd_assy_end r = None) /\
  (candidates <> [] ->
   exists w, earliest candidates w /\
             bbd_assy_station r = Some (cand_station w) /\
             bbd_assy_start r = Some (cand_start w) /\
             bbd_assy_end r = cand_end w).
Proof.
  intros Hw He Hne candidates. pose proof (walk_vi1_part _ _ _ Hw) as Hp.
  destruct (build_stations cycle !! "VI1") as [vi1|].
  2:{ unfold vi1_fields in Hp. simpl in Hp. congruence. }
  destruct Hp as (_ & _ & _ & [(_ & ups & m & _ & _ & Hue & Hb1 & Hb2 & Hb3)|(_ & Hue & _)]);
    [|congruence].
  rewrite He in Hue. rewrite <- Hue, bbd_candidates_after in Hb1, Hb2, Hb3 by done.
  fold candidates in Hb1, Hb2, Hb3.
  destruct (pick candidates) as [w|] eqn:Ep.
  - split; [intros E; rewrite E in Ep; discriminate|].
    intros _. exists w. split; [by apply pick_earliest|]. auto.
  - apply pick_None in Ep. split; [auto|]. intros E. by destruct E.
Qed.

Lemma bbd_assy_selection_witness :
  let cycle := [station_record "VI1" (Some "2024-05-01T08:00:00") (Some "2024-05-01T09:00:00");
                station_record "UPGRADE" (Some "2024-05-01T10:00:00") (Some "2024-05-01T11:00:00");
                station_record "Assembley" (Some "2024-05-01T12:00:00") (Some "2024-05-01T12:30:00");
                station_record "BBD" (Some "2024-05-01T10:30:00") (Some "2024-05-01T10:45:00");
                station_record "ASSY1" (Some "2024-05-01T12:00:00") (Some "2024-05-01T13:00:00");
                station_record "BBD" (Some "2024-05-01T14:00:00") None] in
  exists r, @walk fromisoformat_ext "SN11" (build_stations cycle) = Ok r /\
            bbd_assy_station r = Some "ASSY1" /\
            bbd_assy_start r = Some "2024-05-01T12:00:00" /\
            bbd_assy_end r = Some "2024-05-01T13:00:00".
Proof.
  intros cycle.
  destruct (@walk fromisoformat_ext "SN11" (build_stations cycle)) as [r|e] eqn:E;
    [|by vm_compute in E].
  exists r. split; [reflexivity|].
  destruct (@bbd_assy_selection fromisoformat_ext "SN11" cycle r "2024-05-01T11:00:00" E)
    as [_ Hsel].
  - vm_compute in E. by injection E as <-.
  - discriminate.
  - destruct Hsel as (w & _ & _ & _ & _); [discriminate|].
    vm_compute in E. by injection E as <-.
Defined.

(** X4. After a BBD/ASSY1 visit that ended at a non-empty [e], the
    FLA/CHIFLASH milestone is taken from the first visits after [e] of FLA
    and CHIFLASH: the one with the smallest start, FLA on equal starts;
    without any such visit the two fields stay null. *)
Theorem fla_chiflash_selection `{iso : Fromisoformat}
    (sn : string) (cycle : list record) (r : milestones) (e : string) :
  walk sn (build_stations cycle) = Ok r ->
  bbd_assy_end r = Some e -> e <> "" ->
  let candidates := candidates_after e cycle ["FLA"; "CHIFLASH"] in
  (candidates = [] -> fla_chiflash_station r = None /\ fla_chiflash_start r = None) /\
  (candidates <> [] ->
   exists w, earliest candidates w /\
             fla_chiflash_station r = Some (cand_station w) /\
             fla_chiflash_start r = Some (cand_start w)).
Proof.
  intros Hw He Hne candidates.
  pose proof (walk_vi1_part _ _ _ Hw) as Hp. pose proof (walk_fla_part _ _ _ Hw) as Hf.
  assert (Hst : truthy (bbd_assy_station r) = true).
  { destruct (build_stations cycle !! "VI1") as [vi1|].
    2:{ unfold vi1_fields in Hp. simpl in Hp. congruence. }
    destruct Hp as (_ & _ & _ & [(_ & ups & m & _ & _ & _ & Hb1 & _ & Hb3)|(_ & _ & _ & _ & Hb)]);
      [|congruence].
    destruct (pick (bbd_candidates _ _)) as [c|] eqn:Ep; [|rewrite He in Hb3; discriminate].
    destruct (picked_bound _ _ _ _ (bbd_candidates_names _ _) Ep) as (Hin & _).
    rewrite Hb1. simpl in Hin |- *.
    destruct Hin as [<-|[<-|[<-|[]]]]; reflexivity. }
  rewrite Hst, He, truthy_Some, fla_candidates_after in Hf by done.
  fold candidates in Hf. simpl in Hf. unfold fla_fields in Hf.
  injection Hf as Hf1 Hf2.
  destruct (pick candidates) as [w|] eqn:Ep.
  - split; [intros E; rewrite E in Ep; discriminate|].
    intros _. exists w. split; [by apply pick_earliest|]. auto.
  - apply pick_None in Ep. split; [auto|]. intros E. by destruct E.
Qed.

Lemma fla_chiflash_selection_witness :
  let cycle := [station_record "VI1" (Some "2024-05-01T08:00:00") (Some "2024-05-01T09:00:00");
                station_record "UPGRADE" (Some "2024-05-01T10:00:00") (Some "2024-05-01T11:00:00");
                station_record "BBD" (Some "2024-05-01T12:00:00") (Some "2024-05-01T13:00:00");
                station_record "CHIFLASH" (Some "2024-05-01T14:00:00") None;
                station_record "FLA" (Some "2024-05-01T12:30:00") None;
                station_record "FLA" (Some "2024-05-01T14:00:00") None] in
  exists r, @walk fromisoformat_ext "SN12" (build_stations cycle) = Ok r /\
            fla_chiflash_station r = Some "FLA" /\
            fla_chiflash_start r = Some "2024-05-01T14:00:00".
Proof.
  intros cycle.
  destruct (@walk fromisoformat_ext "SN12" (build_stations cycle)) as [r|e] eqn:E;
    [|by vm_compute in E].
  exists r. split; [reflexivity|].
  destruct (@fla_chiflash_selection fromisoformat_ext "SN12" cycle r "2024-05-01T13:00:00" E)
    as [_ Hsel].
  - vm_compute in E. by injection E as <-.
  - discriminate.
  - destruct Hsel as (w & _ & _ & _); [discriminate|].
    vm_compute in E. by injection E as <-.
Defined.

(** ** Invariants of the result *)

(** X5. Every start the walk selects is strictly greater, as a string, than the
    end it was searched after: the next station starts after vi1End, the
    BBD/ASSY1 visit after upgradeEnd, the FLA/CHIFLASH visit after
    bbdAssyEnd and the SHIPPING visit after packingEnd. *)
Theorem milestones_follow `{iso : Fromisoformat}
    (sn : string) (history_data : list record) (r : milestones) :
  process_raw_timestamps sn history_data = Ok r ->
  (forall s, vi1_next_start r = Some s ->
     exists e, vi1_end r = Some e /\ String.ltb e s = true) /\
  (forall s, bbd_assy_start r = Some s ->
     exists e, upgrade_end r = Some e /\ String.ltb e s = true) /\
  (forall s, fla_chiflash_start r = Some s ->
     exists e, bbd_assy_end r = Some e /\ String.ltb e s = true) /\
  (forall s, shipping_start r = Some s ->
     exists e, packing_end r = Some e /\ String.ltb e s = true).
Proof.
  intros H. apply process_Ok in H as [[_ ->]|(cycle & _ & Hw)].
  { repeat split; intros s; discriminate. }
  pose proof (walk_vi1_part _ _ _ Hw) as Hp. pose proof (walk_fla_part _ _ _ Hw) as Hf.
  pose proof (walk_packing_part _ _ _ Hw) as Hk.
  split; [|split; [|split]].
  - intros s Hs. destruct (build_stations cycle !! "VI1") as [vi1|].
    2:{ unfold vi1_fields in Hp. simpl in Hp. congruence. }
    destruct Hp as (_ & _ & Hn & _). rewrite Hs in Hn.
    destruct (pick (next_candidates _ _)) as [c|] eqn:Ep; [|discriminate].
    injection Hn as ->.
    destruct (picked_bound _ _ _ _ (next_candidates_names _ _) Ep) as (_ & _ & b & Hb & _ & Hlt).
    eauto.
  - intros s Hs. destruct (build_stations cycle !! "VI1") as [vi1|].
    2:{ unfold vi1_fields in Hp. simpl in Hp. congruence. }
    destruct Hp as (_ & _ & _ & [(_ & ups & m & _ & _ & Hue & _ & Hb2 & _)|(_ & _ & _ & Hb & _)]);
      [|congruence].
    rewrite Hs in Hb2.
    destruct (pick (bbd_candidates _ _)) as [c|] eqn:Ep; [|discriminate].
    injection Hb2 as ->.
    destruct (picked_bound _ _ _ _ (bbd_candidates_names _ _) Ep) as (_ & _ & b & Hb & _ & Hlt).
    exists b. split; [congruence|done].
  - intros s Hs. unfold fla_fields in Hf.
    destruct (_ && _); [|congruence].
    injection Hf as _ Hf2. rewrite Hs in Hf2.
    destruct (pick (fla_candidates _ _)) as [c|] eqn:Ep; [|discriminate].
    injection Hf2 as ->.
    destruct (picked_bound _ _ _ _ (fla_candidates_names _ _) Ep) as (_ & _ & b & Hb & _ & Hlt).
    eauto.
  - intros s Hs. destruct (build_stations cycle !! "PACKING") as [packing|].
    2:{ destruct Hk as [_ Hk]. congruence. }
    destruct Hk as [_ Hk]. rewrite Hs in Hk.
    destruct (first_after _ _) as [[s' t]|] eqn:Ef; [|discriminate].
    injection Hk as ->. apply first_after_Some in Ef as [Hl _].
    apply later_Some in Hl as (_ & _ & b & Hb & _ & Hlt). eauto.
Qed.

(** X6. The result carries the serial number it was asked for; a station field
    holds one of the station names of its step or is null, and it is null
    exactly when the start that goes with it is null, which is otherwise a
    non-empty string. *)
Theorem result_shape `{iso : Fromisoformat}
    (sn : string) (history_data : list record) (r : milestones) :
  process_raw_timestamps sn history_data = Ok r ->
  serial_number r = sn /\
  (vi1_next_station r = None /\ vi1_next_start r = None \/
   exists name s, In name ["Disassembly"; "UPGRADE"] /\ s <> "" /\
                  vi1_next_station r = Some name /\ vi1_next_start r = Some s) /\
  (bbd_assy_station r = None /\ bbd_assy_start r = None /\ bbd_assy_end r = None \/
   exists name s, In name ["BBD"; "ASSY1"; "Assembley"] /\ s <> "" /\
                  bbd_assy_station r = Some name /\ bbd_assy_start r = Some s) /\
  (fla_chiflash_station r = None /\ fla_chiflash_start r = None \/
   exists name s, In name ["FLA"; "CHIFLASH"] /\ s <> "" /\
                  fla_chiflash_station r = Some name /\ fla_chiflash_start r = Some s).
Proof.
  intros H. apply process_Ok in H as [[_ ->]|(cycle & _ & Hw)].
  { repeat split; auto. }
  pose proof (walk_vi1_part _ _ _ Hw) as Hp. pose proof (walk_fla_part _ _ _ Hw) as Hf.
  split; [by apply walk_serial_number in Hw|].
  assert (Hfla : fla_chiflash_station r = None /\ fla_chiflash_start r = None \/
    exists name s, In name ["FLA"; "CHIFLASH"] /\ s <> "" /\
                   fla_chiflash_station r = Some name /\ fla_chiflash_start r = Some s).
  { unfold fla_fields in Hf. destruct (_ && _); [|left; split; congruence].
    injection Hf as -> ->.
    destruct (pick (fla_candidates _ _)) as [c|] eqn:Ep; [|by left].
    destruct (picked_bound _ _ _ _ (fla_candidates_names _ _) Ep) as (Hin & Hne & _).
    right. exists (cand_station c), (cand_start c). auto. }
  destruct (build_stations cycle !! "VI1") as [vi1|].
  2:{ unfold vi1_fields in Hp. simpl in Hp.
      injection Hp as _ _ Hn Hs _ Hb1 Hb2 Hb3. split; [left|split; [left|]]; auto. }
  destruct Hp as (_ & Hn & Hs & Hb). split; [|split; [|exact Hfla]].
  - rewrite Hn, Hs. destruct (pick (next_candidates _ _)) as [c|] eqn:Ep; [|by left].
    destruct (picked_bound _ _ _ _ (next_candidates_names _ _) Ep) as (Hin & Hne & _).
    right. exists (cand_station c), (cand_start c). auto.
  - destruct Hb as [(_ & ups & m & _ & _ & _ & Hb1 & Hb2 & Hb3)|(_ & _ & Hb1 & Hb2 & Hb3)];
      [|by left].
    rewrite Hb1, Hb2, Hb3.
    destruct (pick (bbd_candidates _ _)) as [c|] eqn:Ep; [|by left].
    destruct (picked_bound _ _ _ _ (bbd_candidates_names _ _) Ep) as (Hin & Hne & _).
    right. exists (cand_station c), (cand_start c). auto.
Qed.

(** X7. A missing predecessor halts its branch.  Without a usable vi1End (null
    or empty) nothing of the VI1 branch is set; without a usable upgradeEnd
    no BBD/ASSY1 and no FLA/CHIFLASH milestone is set; without a usable
    bbdAssyEnd no FLA/CHIFLASH milestone; without a usable packingEnd no
    shippingStart. *)
Theorem missing_predecessor_halts `{iso : Fromisoformat}
    (sn : string) (history_data : list record) (r : milestones) :
  process_raw_timestamps sn history_data = Ok r ->
  (truthy (vi1_end r) = false ->
   vi1_next_station r = None /\ vi1_next_start r = None /\ upgrade_end r = None) /\
  (truthy (upgrade_end r) = false ->
   bbd_assy_station r = None /\ bbd_assy_start r = None /\ bbd_assy_end r = None) /\
  (truthy (bbd_assy_end r) = false ->
   fla_chiflash_station r = None /\ fla_chiflash_start r = None) /\
  (truthy (packing_end r) = false -> shipping_start r = None).
Proof.
  intros H. apply process_Ok in H as [[_ ->]|(cycle & _ & Hw)].
  { repeat split; auto. }
  pose proof (walk_vi1_part _ _ _ Hw) as Hp. pose proof (walk_fla_part _ _ _ Hw) as Hf.
  pose proof (walk_packing_part _ _ _ Hw) as Hk.
  split; [|split; [|split]].
  - intros Hv. destruct (build_stations cycle !! "VI1") as [vi1|].
    2:{ unfold vi1_fields in Hp. simpl in Hp.
        injection Hp as _ _ Hn Hs Hu _ _ _. auto. }
    destruct Hp as (_ & Hn & Hs & Hb).
    unfold next_candidates in Hn, Hs. rewrite !candidates_of_falsy in Hn, Hs by done.
    simpl in Hn, Hs. split; [done|]. split; [done|].
    destruct Hb as [(Hu & _)|(_ & Hu & _)]; [congruence|done].
  - intros Hv. destruct (build_stations cycle !! "VI1") as [vi1|].
    2:{ unfold vi1_fields in Hp. simpl in Hp.
        injection Hp as _ _ _ _ _ Hb1 Hb2 Hb3. auto. }
    destruct Hp as (_ & _ & _ & [(_ & ups & m & _ & _ & Hue & Hb1 & Hb2 & Hb3)|(_ & _ & Hb)]);
      [|exact Hb].
    rewrite Hue in Hv. unfold bbd_candidates in Hb1, Hb2, Hb3.
    rewrite !candidates_of_falsy in Hb1, Hb2, Hb3 by done. auto.
  - intros Hv. unfold fla_fields in Hf. rewrite Hv, andb_false_r in Hf.
    by injection Hf as -> ->.
  - intros Hv. destruct (build_stations cycle !! "PACKING") as [packing|].
    + destruct Hk as [_ ->]. by rewrite first_after_falsy.
    + by destruct Hk as [_ ->].
Qed.

Lemma milestones_follow_witness :
  exists r, @process_raw_timestamps fromisoformat_ext "SN13" sample_history = Ok r /\
            (exists e, vi1_end r = Some e /\ String.ltb e "2024-05-01T10:00:00" = true) /\
            (exists e, packing_end r = Some e /\ String.ltb e "2024-05-02T10:00:00" = true).
Proof.
  destruct (@process_raw_timestamps fromisoformat_ext "SN13" sample_history) as [r|e] eqn:E;
    [|by vm_compute in E].
  exists r. split; [reflexivity|].
  destruct (@milestones_follow fromisoformat_ext "SN13" sample_history r E)
    as (H1 & _ & _ & H4).
  split; [apply H1|apply H4]; vm_compute in E; by injection E as <-.
Defined.

Lemma result_shape_witness :
  exists r, @process_raw_timestamps fromisoformat_ext "SN13" sample_history = Ok r /\
            serial_number r = "SN13".
Proof.
  destruct (@process_raw_timestamps fromisoformat_ext "SN13" sample_history) as [r|e] eqn:E;
    [|by vm_compute in E].
  exists r. split; [reflexivity|].
  by destruct (@result_shape fromisoformat_ext "SN13" sample_history r E) as (H1 & _).
Defined.

Lemma missing_predecessor_halts_witness :
  let hd := [station_record "VI1" (Some "2024-05-01T08:00:00") (Some "2024-05-01T09:00:00");
             station_record "UPGRADE" (Some "2024-05-01T10:00:00") None;
             station_record "BBD" (Some "2024-05-01T12:00:00") (Some "2024-05-01T13:00:00");
             station_record "FLA" (Some "2024-05-01T14:00:00") None] in
  exists r, @process_raw_timestamps fromisoformat_ext "SN14" hd = Ok r /\
            vi1_next_station r = Some "UPGRADE" /\
            bbd_assy_station r = None /\ bbd_assy_start r = None /\ bbd_assy_end r = None /\
            fla_chiflash_station r = None /\ fla_chiflash_start r = None.
Proof.
  intros hd.
  destruct (@process_raw_timestamps fromisoformat_ext "SN14" hd) as [r|e] eqn:E;
    [|by vm_compute in E].
  exists r. split; [reflexivity|].
  destruct (@missing_predecessor_halts fromisoformat_ext "SN14" hd r E)
    as (_ & H2 & H3 & _).
  assert (Hn : vi1_next_station r = Some "UPGRADE" /\ upgrade_end r = None)
    by (vm_compute in E; by injection E as <-).
  destruct Hn as [Hn Hu]. split; [exact Hn|].
  destruct H2 as (B1 & B2 & B3); [by rewrite Hu|].
  destruct H3 as (F1 & F2); [by rewrite B3|]. auto 10.
Defined.

(** ** Stations the walk does not read *)

Ltac in_list := simpl; repeat first [left; reflexivity | right].

Lemma walk_ext `{iso : Fromisoformat} sn (st1 st2 : stations_t) :
  (forall name, In name milestone_stations -> st1 !! name = st2 !! name) ->
  walk sn st1 = walk sn st2.
Proof.
  intros H.
  assert (Hc : forall name bound, In name milestone_stations ->
            candidates_of st1 name bound = candidates_of st2 name bound).
  { intros name bound Hin. unfold candidates_of. by rewrite (H name Hin). }
  assert (H1 : forall r0, step_vi1 st1 r0 = step_vi1 st2 r0).
  { intros r0. unfold step_vi1, getitem.
    rewrite (H "VI1"), (H "UPGRADE") by in_list.
    destruct (st2 !! "VI1") as [vi1|]; [|done].
    destruct (most_recent_end vi1) as [e|e]; [|done]. simpl.
    rewrite (Hc "Disassembly"), (Hc "UPGRADE") by in_list.
    destruct (bool_decide _); [|done].
    destruct (st2 !! "UPGRADE") as [ups|]; [|done]. simpl.
    destruct (find_matching _ ups) as [m|]; [|done].
    by rewrite (Hc "BBD"), (Hc "ASSY1"), (Hc "Assembley") by in_list. }
  assert (H2 : forall r0, step_fla st1 r0 = step_fla st2 r0).
  { intros r0. unfold step_fla.
    by rewrite (Hc "FLA"), (Hc "CHIFLASH") by in_list. }
  assert (H3 : forall r0, step_packing st1 r0 = step_packing st2 r0).
  { intros r0. unfold step_packing.
    by rewrite (H "PACKING"), (H "SHIPPING") by in_list. }
  unfold walk. rewrite H1. destruct (step_vi1 st2 (empty_result sn)); [|done].
  simpl. by rewrite H2, H3.
Qed.

(** X9. The milestones depend only on the visits of the ten stations the walk
    names: a record of any other station (RECEIVE included) can be added to
    or removed from the working set without changing the result. *)
Theorem other_stations_ignored `{iso : Fromisoformat}
    (sn : string) (l1 l2 : list record) (rec : record) :
  ~ In (station_of rec) milestone_stations ->
  walk sn (build_stations (l1 ++ rec :: l2)) = walk sn (build_stations (l1 ++ l2)).
Proof.
  intros Hn. apply walk_ext. intros name Hin.
  rewrite !build_stations_lookup. unfold visits_named.
  rewrite !List.filter_app. simpl.
  rewrite bool_decide_eq_false_2; [done|]. intros E. apply Hn. by rewrite E.
Qed.

Lemma other_stations_ignored_witness :
  @walk fromisoformat_ext "SN15"
    (build_stations (station_record "RECEIVE" (Some "2024-05-01T07:00:00") None
                     :: station_record "TEST7" (Some "2024-05-01T09:30:00") None
                     :: sample_history)) =
  @walk fromisoformat_ext "SN15" (build_stations sample_history).
Proof.
  transitivity
    (@walk fromisoformat_ext "SN15"
       (build_stations (station_record "TEST7" (Some "2024-05-01T09:30:00") None
                        :: sample_history))).
  - apply (@other_stations_ignored fromisoformat_ext "SN15" []
             (station_record "TEST7" (Some "2024-05-01T09:30:00") None :: sample_history)
             (station_record "RECEIVE" (Some "2024-05-01T07:00:00") None)).
    vm_compute. intuition discriminate.
  - apply (@other_stations_ignored fromisoformat_ext "SN15" [] sample_history
             (station_record "TEST7" (Some "2024-05-01T09:30:00") None)).
    vm_compute. intuition discriminate.
Defined.

(** X8. Without a VI1 and without a PACKING record among the filtered records
    every milestone is null, whatever the other stations hold: the visits of
    Disassembly, UPGRADE, BBD, FLA or SHIPPING alone populate nothing. *)
Theorem nothing_without_vi1_and_packing `{iso : Fromisoformat}
    (sn : string) (history_data : list record) (r : milestones) :
  process_raw_timestamps sn history_data = Ok r ->
  Forall (fun rec => workstation_name rec <> Some "VI1" /\
                     workstation_name rec <> Some "PACKING")
         (List.filter is_workstation history_data) ->
  r = empty_result sn.
Proof.
  intros H Hall. apply process_Ok in H as [[_ ->]|(cycle & Hc & Hw)]; [done|].
  assert (Hnone : forall name, name = "VI1" \/ name = "PACKING" ->
            build_stations cycle !! name = None).
  { intros name Hname. rewrite build_stations_lookup.
    destruct (visits_named name cycle) as [|v vs] eqn:E; [done|].
    assert (Hv : In v (visits_named name cycle)) by (rewrite E; by left).
    apply visits_named_inv in Hv as (rec & Hrec & Hst & _).
    apply (current_cycle_incl _ _ _ Hc) in Hrec.
    rewrite List.Forall_forall in Hall. destruct (Hall _ Hrec) as [Hv1 Hv2].
    pose proof Hrec as Hrec'. apply filter_In in Hrec' as [_ Hws].
    unfold is_workstation in Hws. apply andb_prop in Hws as [_ Hws].
    unfold station_of in Hst.
    destruct (workstation_name rec) as [n|]; [|discriminate]. simpl in Hst.
    destruct Hname; congruence. }
  unfold walk in Hw. rewrite step_vi1_absent in Hw by auto. simpl in Hw.
  rewrite step_packing_absent in Hw by auto.
  injection Hw as <-. reflexivity.
Qed.

Lemma nothing_without_vi1_and_packing_witness :
  @process_raw_timestamps fromisoformat_ext "SN16"
    [station_record "RECEIVE" (Some "2024-05-01T07:00:00") None;
     station_record "UPGRADE" (Some "2024-05-01T10:00:00") (Some "2024-05-01T11:00:00");
     station_record "BBD" (Some "2024-05-01T12:00:00") (Some "2024-05-01T13:00:00");
     station_record "SHIPPING" (Some "2024-05-02T10:00:00") None]
  = Ok (empty_result "SN16").
Proof.
  destruct (@process_raw_timestamps fromisoformat_ext "SN16"
    [station_record "RECEIVE" (Some "2024-05-01T07:00:00") None;
     station_record "UPGRADE" (Some "2024-05-01T10:00:00") (Some "2024-05-01T11:00:00");
     station_record "BBD" (Some "2024-05-01T12:00:00") (Some "2024-05-01T13:00:00");
     station_record "SHIPPING" (Some "2024-05-02T10:00:00") None]) as [r|e] eqn:E;
    [|by vm_compute in E].
  f_equal.
  apply (@nothing_without_vi1_and_packing fromisoformat_ext "SN16" _ r E).
  repeat (constructor; [split; discriminate|]). constructor.
Defined.

(** ** When the extractor returns: examples *)

Lemma process_raw_timestamps_total_witness :
  exists r, @process_raw_timestamps fromisoformat_ext "SN17"
              (station_record "VI1" None (Some "not a date") :: sample_history) = Ok r.
Proof.
  apply (@process_raw_timestamps_total fromisoformat_ext "SN17" _ false false).
  repeat (constructor; [split; by vm_compute|]). constructor.
Defined.

Lemma process_raw_timestamps_raises_witness :
  exists e, @process_raw_timestamps fromisoformat_ext "SN18"
              [station_record "PACKING" (Some "2024-05-02T08:00:00") (Some "2024-05-02T09:00:00Z");
               station_record "PACKING" (Some "2024-05-03T08:00:00") (Some "2024-05-03T09:00:00")]
            = Raise e /\ e = TypeError.
Proof.
  destruct (@process_raw_timestamps fromisoformat_ext "SN18"
              [station_record "PACKING" (Some "2024-05-02T08:00:00") (Some "2024-05-02T09:00:00Z");
               station_record "PACKING" (Some "2024-05-03T08:00:00") (Some "2024-05-03T09:00:00")])
    as [r|e] eqn:E; [by vm_compute in E|].
  exists e. split; [reflexivity|].
  exact (@process_raw_timestamps_raises fromisoformat_ext "SN18" _ e E).
Defined.

(** ** The display transform: example *)

Lemma convert_to_raw_timestamp_parsed_witness :
  @convert_to_raw_timestamp fromisoformat_ext "2024-03-01T02:30:00+08:00"
  = Ok "2024-02-29 22:30:00".
Proof.
  eapply eq_trans.
  - eapply (@convert_to_raw_timestamp_parsed fromisoformat_ext).
    + discriminate.
    + vm_compute. reflexivity.
    + reflexivity.
    + vm_compute. discriminate.
  - reflexivity.
Defined.

(** Before year 1000 the year is written with fewer than four digits. *)
Lemma convert_to_raw_timestamp_short_year :
  @convert_to_raw_timestamp fromisoformat_ext "0001-01-01T08:00:00"
  = Ok "1-01-01 04:00:00" /\
  @convert_to_raw_timestamp fromisoformat_ext "0999-12-31T23:59:59Z"
  = Ok "999-12-31 19:59:59" /\
  @convert_to_raw_timestamp fromisoformat_ext "1000-01-01T03:59:59"
  = Ok "999-12-31 23:59:59" /\
  @convert_to_raw_timestamp fromisoformat_ext "1000-01-01T04:00"
  = Ok "1000-01-01 00:00:00".
Proof. repeat split; by vm_compute. Qed.

(** ** Batches *)

Lemma concat_slices (l : list string) (m : nat) :
  concat (List.map (slice l) (List.map (fun k => (k * batch_size)%nat) (seq 0 m)))
  = take (m * batch_size) l.
Proof.
  induction m as [|m IH]; [done|].
  rewrite seq_S, !List.map_app, concat_app, IH. simpl.
  rewrite app_nil_r. unfold slice. rewrite take_take_drop. f_equal.
  unfold batch_size. lia.
Qed.

Lemma batch_count_bounds (n : nat) :
  let m := ((n + (batch_size - 1)) / batch_size)%nat in
  (n <= m * batch_size /\ forall k, k < m -> k * batch_size < n)%nat.
Proof.
  unfold batch_size. change (10 - 1)%nat with 9%nat.
  pose proof (Nat.div_mod_eq (n + 9) 10) as E.
  pose proof (Nat.mod_upper_bound (n + 9) 10 ltac:(discriminate)) as B.
  cbv zeta. split; [lia|]. intros k Hk. lia.
Qed.

(** X12. The batches cut the list of serial numbers into consecutive pieces of
    at most ten, none of them empty, whose number is the length divided by
    ten and rounded up: every serial number is asked for exactly once, in
    order. *)
Theorem batches_partition (serial_numbers : list string) :
  concat (batches serial_numbers) = serial_numbers /\
  Forall (fun b => (1 <= length b <= batch_size)%nat) (batches serial_numbers) /\
  length (batches serial_numbers) = ((length serial_numbers + 9) / 10)%nat.
Proof.
  destruct (batch_count_bounds (length serial_numbers)) as [Hup Hlow].
  split; [|split].
  - unfold batches, batch_starts. rewrite concat_slices. by apply take_ge.
  - unfold batches, batch_starts. apply List.Forall_forall. intros b Hb.
    apply in_map_iff in Hb as (i & <- & Hi).
    apply in_map_iff in Hi as (k & <- & Hk). apply in_seq in Hk.
    specialize (Hlow k ltac:(lia)).
    unfold slice. rewrite length_take, length_drop. lia.
  - unfold batches, batch_starts. by rewrite !length_map, length_seq.
Qed.

(** ** Grouping the history by serial number *)

Lemma add_history_lookup m h s m' :
  add_history m h = Ok m' ->
  default [] (m' !! s) = (default [] (m !! s) ++ records_of s [h])%list.
Proof.
  unfold add_history, records_of. destruct (sn h) as [s'|] eqn:E; [|discriminate].
  intros [= <-]. simpl. rewrite E.
  destruct (decide (s' = s)) as [->|Hne].
  - rewrite lookup_insert_eq, bool_decide_eq_true_2 by done. reflexivity.
  - rewrite lookup_insert_ne, bool_decide_eq_false_2 by congruence.
    simpl. by rewrite app_nil_r.
Qed.

Lemma records_of_cons s h hs :
  records_of s (h :: hs) = (records_of s [h] ++ records_of s hs)%list.
Proof. unfold records_of. simpl. by destruct (bool_decide _). Qed.

Lemma group_history_Ok hs m0 :
  Forall (fun h => sn h <> None) hs ->
  exists m, group_history m0 hs = Ok m /\
            forall s, default [] (m !! s) = (default [] (m0 !! s) ++ records_of s hs)%list.
Proof.
  intros Hall. revert m0. induction Hall as [|h hs Hh _ IH]; intros m0.
  - exists m0. split; [done|]. intros s. by rewrite app_nil_r.
  - simpl. destruct (add_history m0 h) as [m1|e] eqn:E.
    2:{ unfold add_history in E. destruct (sn h); [discriminate|done]. }
    destruct (IH m1) as (m & Hm & Hl). exists m. split; [exact Hm|].
    intros s. rewrite Hl, (add_history_lookup _ _ s _ E), (records_of_cons s h hs).
    by rewrite app_assoc.
Qed.

Lemma group_history_KeyError hs m0 :
  Exists (fun h => sn h = None) hs -> group_history m0 hs = Raise KeyError.
Proof.
  intros Hex. revert m0. induction hs as [|h hs IH]; intros m0; [by inversion Hex|].
  simpl. unfold add_history at 1. destruct (sn h) as [s|] eqn:E; [|done]. simpl.
  apply IH. inversion Hex as [? ? Hh|? ? Ht]; subst; [congruence|done].
Qed.

(** X13. The dict [history_by_sn] maps a serial number to the records of the
    response that carry it, in their order, and to nothing (the default
    empty list) when there is none; a record without the key 'sn' makes the
    grouping raise KeyError. *)
Theorem history_grouping (hs : list history_record) :
  (Forall (fun h => sn h <> None) hs ->
   exists m, group_history ∅ hs = Ok m /\
             forall s, default [] (m !! s) = records_of s hs) /\
  (Exists (fun h => sn h = None) hs -> group_history ∅ hs = Raise KeyError).
Proof.
  split; [|apply group_history_KeyError].
  intros Hall. destruct (group_history_Ok hs ∅ Hall) as (m & Hm & Hl).
  exists m. split; [exact Hm|]. intros s. rewrite Hl. by rewrite lookup_empty.
Qed.

Lemma history_grouping_witness :
  let hs := [tagged "A" (station_record "VI1" None None);
             tagged "B" (station_record "FLA" None None);
             tagged "A" (station_record "PACKING" None None)] in
  exists m, group_history ∅ hs = Ok m /\
            default [] (m !! "A") =
              [station_record "VI1" None None; station_record "PACKING" None None] /\
            default [] (m !! "C") = [].
Proof.
  intros hs. destruct (history_grouping hs) as [Hok _].
  destruct Hok as (m & Hm & Hl).
  - repeat (constructor; [discriminate|]). constructor.
  - exists m. split; [exact Hm|]. by rewrite !Hl.
Defined.

(** ** The export driver *)

Lemma map_raising_Ok {A B : Type} (f : A -> result B) l rs :
  map_raising f l = Ok rs -> Forall2 (fun x y => f x = Ok y) l rs.
Proof.
  revert rs. induction l as [|x l IH]; intros rs H.
  - injection H as <-. constructor.
  - simpl in H. inv_bind H. inv_bind H. injection H as <-. constructor; auto.
Qed.

Lemma map_raising_ext {A B : Type} (f g : A -> result B) l :
  (forall x, In x l -> f x = g x) -> map_raising f l = map_raising g l.
Proof.
  induction l as [|x l IH]; intros H; [done|].
  simpl. rewrite (H x) by (by left). rewrite IH; [done|].
  intros y Hy. apply H. by right.
Qed.

Lemma group_history_lookup hs m0 m :
  group_history m0 hs = Ok m ->
  forall s, default [] (m !! s) = (default [] (m0 !! s) ++ records_of s hs)%list.
Proof.
  revert m0. induction hs as [|h hs IH]; intros m0 H s.
  - injection H as <-. by rewrite app_nil_r.
  - simpl in H. inv_bind H.
    rewrite (IH _ H), (add_history_lookup _ _ s _ Ha), (records_of_cons s h hs).
    by rewrite app_assoc.
Qed.

Lemma process_serial_number `{iso : Fromisoformat} s hd r :
  process_raw_timestamps s hd = Ok r -> serial_number r = s.
Proof.
  intros H. apply process_Ok in H as [[_ ->]|(cycle & _ & Hw)]; [done|].
  by apply walk_serial_number in Hw.
Qed.

Lemma csv_row_width `{iso : Fromisoformat} r row :
  csv_row r = Ok row -> length row = 12%nat.
Proof.
  unfold csv_row. intros H. repeat inv_bind H. by injection H as <-.
Qed.

Section ExportProperties.

Context `{iso : Fromisoformat}.
Variable api : nat -> list string -> api_response.

Lemma process_batch_answered k batch :
  success (api k batch) = true ->
  Forall (fun h => sn h <> None) (history (api k batch)) ->
  process_batch api k batch =
  map_raising
    (fun s => process_raw_timestamps s (records_of s (history (api k batch)))) batch.
Proof.
  intros Hs Hall. unfold process_batch. rewrite Hs.
  destruct (group_history_Ok _ ∅ Hall) as (m & Hm & Hl). rewrite Hm. simpl.
  apply map_raising_ext. intros s _. rewrite Hl. by rewrite lookup_empty.
Qed.

Lemma process_batch_Ok k batch rs :
  process_batch api k batch = Ok rs ->
  if success (api k batch) then
    Forall2 (fun s r => process_raw_timestamps s (records_of s (history (api k batch)))
                        = Ok r) batch rs
  else rs = [].
Proof.
  unfold process_batch. destruct (success (api k batch)); [|congruence].
  intros H. inv_bind H. apply map_raising_Ok in H.
  eapply Forall2_impl; [exact H|]. simpl. intros s r Hr.
  rewrite (group_history_lookup _ _ _ Ha s) in Hr. by rewrite lookup_empty in Hr.
Qed.

Lemma process_batches_serials k bs rs :
  process_batches api k bs = Ok rs ->
  List.map serial_number rs = concat (answered api k bs).
Proof.
  revert k rs. induction bs as [|b bs IH]; intros k rs H.
  - by injection H as <-.
  - simpl in H. inv_bind H. inv_bind H. injection H as <-.
    rewrite List.map_app, (IH _ _ Ha0). simpl.
    apply process_batch_Ok in Ha. destruct (success (api k b)).
    + simpl. f_equal. clear -Ha. induction Ha as [|s r l l' Hr _ IH']; [done|].
      simpl. by rewrite (process_serial_number _ _ _ Hr), IH'.
    + by subst.
Qed.

Lemma answered_all k bs :
  (forall k b, success (api k b) = true) -> answered api k bs = bs.
Proof.
  intros Hall. revert k. induction bs as [|b bs IH]; intros k; [done|].
  simpl. by rewrite Hall, IH.
Qed.

Lemma process_batches_down k bs :
  (forall k b, success (api k b) = false) -> process_batches api k bs = Ok [].
Proof.
  intros Hall. revert k. induction bs as [|b bs IH]; intros k; [done|].
  simpl. unfold process_batch. by rewrite Hall, IH.
Qed.

End ExportProperties.

(** X14. The result of a unit is the extractor run on the records of the batch's
    response that carry its serial number: the records of the other units
    of the batch do not influence it.  A batch whose call failed
    contributes nothing; a record without 'sn' in a successful response
    raises KeyError. *)
Theorem batch_results `{iso : Fromisoformat}
    (api : nat -> list string -> api_response) (k : nat) (batch : list string) :
  (success (api k batch) = false -> process_batch api k batch = Ok []) /\
  (success (api k batch) = true ->
   Forall (fun h => sn h <> None) (history (api k batch)) ->
   process_batch api k batch =
   map_raising
     (fun s => process_raw_timestamps s (records_of s (history (api k batch)))) batch) /\
  (success (api k batch) = true ->
   Exists (fun h => sn h = None) (history (api k batch)) ->
   process_batch api k batch = Raise KeyError).
Proof.
  split; [|split].
  - intros Hs. unfold process_batch. by rewrite Hs.
  - apply process_batch_answered.
  - intros Hs Hex. unfold process_batch. rewrite Hs.
    by rewrite group_history_KeyError.
Qed.

Lemma batch_results_witness :
  @process_batch fromisoformat_ext sample_api 0 ["S01"; "S02"]
  = (r1 ← @process_raw_timestamps fromisoformat_ext "S01" [];
     r2 ← @process_raw_timestamps fromisoformat_ext "S02" sample_history;
     Ok [r1; r2]).
Proof.
  destruct (@batch_results fromisoformat_ext sample_api 0 ["S01"; "S02"]) as (_ & H & _).
  rewrite H.
  - by vm_compute.
  - reflexivity.
  - unfold sample_api. simpl. repeat (constructor; [discriminate|]). constructor.
Defined.

(** X15. When the export returns, it returns one result per serial number of the
    batches whose call succeeded, in the order of the input, each carrying
    its serial number (all of the input when every call succeeded), and it
    writes the header and one row of twelve cells per result. *)
Theorem export_results `{iso : Fromisoformat}
    (api : nat -> list string -> api_response) (serial_numbers : list string)
    (rows : list (list string)) (results : list milestones) :
  export_raw_timestamps api serial_numbers = Ok (rows, results) ->
  List.map serial_number results = concat (answered api 0 (batches serial_numbers)) /\
  ((forall k b, success (api k b) = true) ->
   List.map serial_number results = serial_numbers) /\
  (exists body, rows = csv_header :: body /\ length body = length results) /\
  Forall (fun row => length row = 12%nat) rows.
Proof.
  unfold export_raw_timestamps. intros H. inv_bind H. inv_bind H.
  injection H as <- <-. rename a into results, a0 into body.
  pose proof (process_batches_serials _ _ _ _ Ha) as Hs.
  split; [exact Hs|]. split; [|split].
  - intros Hall. rewrite Hs, answered_all by done.
    apply batches_partition.
  - exists body. split; [done|]. apply map_raising_Ok in Ha0.
    symmetry. eapply Forall2_length, Ha0.
  - constructor; [reflexivity|]. apply map_raising_Ok in Ha0.
    clear -Ha0. induction Ha0 as [|r row l l' Hr _ IH]; constructor; auto.
    by apply csv_row_width in Hr.
Qed.

Lemma export_results_witness :
  exists rows results,
    @export_raw_timestamps fromisoformat_ext sample_api twelve_serials = Ok (rows, results) /\
    List.map serial_number results =
      ["S01"; "S02"; "S03"; "S04"; "S05"; "S06"; "S07"; "S08"; "S09"; "S10"] /\
    length rows = 11%nat.
Proof.
  destruct (@export_raw_timestamps fromisoformat_ext sample_api twelve_serials)
    as [[rows results]|e] eqn:E; [|by vm_compute in E].
  exists rows, results. split; [reflexivity|].
  destruct (@export_results fromisoformat_ext sample_api twelve_serials rows results E)
    as (Hs & _ & (body & -> & Hb) & _).
  split; [exact Hs|].
  simpl. rewrite Hb, <- (length_map serial_number), Hs. reflexivity.
Defined.

(** X16. When every call of the API fails, the export does not raise: it
    returns the empty list and writes the header alone. *)
Theorem export_api_down `{iso : Fromisoformat}
    (api : nat -> list string -> api_response) (serial_numbers : list string) :
  (forall k b, success (api k b) = false) ->
  export_raw_timestamps api serial_numbers = Ok ([csv_header], []).
Proof.
  intros Hall. unfold export_raw_timestamps.
  by rewrite process_batches_down.
Qed.

Lemma export_api_down_witness :
  @export_raw_timestamps fromisoformat_ext failing_api twelve_serials
  = Ok ([csv_header], []).
Proof.
  apply (@export_api_down fromisoformat_ext failing_api twelve_serials).
  reflexivity.
Defined.

(** X17. A serial number for which a successful response holds no record gets
    the all-null result, and its row is the serial number followed by
    eleven empty cells. *)
Theorem unknown_serial_blank_row `{iso : Fromisoformat}
    (api : nat -> list string -> api_response) (k : nat) (batch : list string)
    (rs : list milestones) (r : milestones) :
  success (api k batch) = true ->
  process_batch api k batch = Ok rs ->
  In r rs ->
  records_of (serial_number r) (history (api k batch)) = [] ->
  r = empty_result (serial_number r) /\
  csv_row r = Ok (serial_number r :: repeat ""%string 11).
Proof.
  intros Hs Hb Hin Hnone. apply process_batch_Ok in Hb. rewrite Hs in Hb.
  remember (history (api k batch)) as hist eqn:Eh. clear Eh Hs.
  assert (Hr : exists s, process_raw_timestamps s (records_of s hist) = Ok r).
  { clear -Hb Hin. induction Hb as [|s r' l l' Hr _ IH]; [done|].
    destruct Hin as [->|Hin]; eauto. }
  destruct Hr as (s & Hr). pose proof (process_serial_number _ _ _ Hr) as Es.
  rewrite Es in Hnone |- *. rewrite Hnone in Hr. injection Hr as <-.
  split; reflexivity.
Qed.

Lemma unknown_serial_blank_row_witness :
  exists rs,
    @process_batch fromisoformat_ext sample_api 0 ["S01"; "S02"] = Ok rs /\
    Forall (fun r => serial_number r = "S01" ->
                     @csv_row fromisoformat_ext r = Ok ("S01" :: repeat ""%string 11)) rs.
Proof.
  destruct (@process_batch fromisoformat_ext sample_api 0 ["S01"; "S02"]) as [rs|e] eqn:E;
    [|by vm_compute in E].
  exists rs. split; [reflexivity|].
  apply List.Forall_forall. intros r Hin Hsn.
  destruct (@unknown_serial_blank_row fromisoformat_ext sample_api 0 ["S01"; "S02"] rs r
              eq_refl E Hin) as [_ Hrow].
  - rewrite Hsn. reflexivity.
  - by rewrite Hsn in Hrow.
Defined.

(** ** The cycle restriction, applied twice *)

Lemma filter_all {A : Type} (p : A -> bool) (l : list A) :
  Forall (fun x => p x = true) l -> List.filter p l = l.
Proof.
  induction 1 as [|x l Hx _ IH]; [done|]. simpl. by rewrite Hx, IH.
Qed.

Lemma current_cycle_fixed `{iso : Fromisoformat} wd cycle :
  current_cycle wd = Ok cycle -> current_cycle cycle = Ok cycle.
Proof.
  intros H. destruct (decide (List.filter is_receive wd = [])) as [E|Hne].
  { rewrite current_cycle_no_receive in H by done. injection H as <-.
    by apply current_cycle_no_receive. }
  destruct (current_cycle_Ok _ _ Hne H) as (s & b & Hs & Hp & Hss & Hb & Hu & ->).
  set (cycle := List.filter (at_or_after start_key (start_key b)) wd).
  assert (Hbr : In b (List.filter is_receive wd))
    by (rewrite Hp; by apply last_item_In).
  assert (Hbc : In b (List.filter is_receive cycle)).
  { apply filter_In in Hbr as [Hbw Hbr]. apply filter_In. split; [|done].
    apply filter_In. split; [done|]. unfold at_or_after.
    rewrite Z.geb_leb. apply Z.leb_refl. }
  assert (Hk : uniform start_key (aware (start_key b)) cycle).
  { apply List.Forall_forall. intros r Hr. apply filter_In in Hr as [Hr _].
    rewrite List.Forall_forall in Hu. by apply Hu. }
  destruct (current_cycle_uniform _ _ Hk) as (cycle' & Hc'). rewrite Hc'. f_equal.
  apply current_cycle_Ok in Hc' as (s' & b' & Hs' & Hp' & Hss' & Hb' & _ & ->);
    [|intros E'; rewrite E' in Hbc; inversion Hbc].
  apply filter_all. apply List.Forall_forall. intros r Hr.
  assert (Hb'c : In b' (List.filter is_receive cycle))
    by (rewrite Hp'; by apply last_item_In).
  assert (Hle : key_le start_key b' b).
  { apply (last_item_greatest start_key s b Hss Hb b'). rewrite <- Hp.
    apply filter_In in Hb'c as [Hin Hrc]. apply filter_In in Hin as [Hin _].
    by apply filter_In. }
  apply filter_In in Hr as [_ Hge]. unfold at_or_after in *.
  rewrite Z.geb_leb in *. apply Z.leb_le in Hge. apply Z.leb_le.
  unfold key_le in Hle. lia.
Qed.

(** X10. The records of the current cycle are a working set of their own: the
    cycle restriction leaves them as they are, and the extractor run on
    them alone returns what it returns on the whole history. *)
Theorem current_cycle_suffices `{iso : Fromisoformat}
    (sn : string) (history_data cycle : list record) :
  current_cycle (List.filter is_workstation history_data) = Ok cycle ->
  current_cycle cycle = Ok cycle /\
  process_raw_timestamps sn cycle = process_raw_timestamps sn history_data.
Proof.
  intros Hc. pose proof (current_cycle_fixed _ _ Hc) as Hfix. split; [exact Hfix|].
  assert (Hws : List.filter is_workstation cycle = cycle).
  { apply filter_all, List.Forall_forall. intros r Hr.
    apply (current_cycle_incl _ _ _ Hc) in Hr. by apply filter_In in Hr as [_ ?]. }
  destruct (List.filter is_workstation history_data) as [|x l] eqn:E.
  { rewrite current_cycle_no_receive in Hc by done. injection Hc as <-.
    unfold process_raw_timestamps. destruct history_data; [done|]. by rewrite E. }
  rewrite (process_unfold sn history_data) by (rewrite E; discriminate).
  rewrite E, Hc. simpl.
  destruct cycle as [|y l'] eqn:Ecy.
  - unfold walk, step_vi1, step_packing. by rewrite !build_stations_lookup.
  - rewrite <- Ecy in *. rewrite process_unfold by (rewrite Hws, Ecy; discriminate).
    by rewrite Hws, Hfix.
Qed.

Lemma current_cycle_suffices_witness :
  exists cycle,
    @current_cycle fromisoformat_ext (List.filter is_workstation sample_history) = Ok cycle /\
    length cycle = 7%nat /\
    @process_raw_timestamps fromisoformat_ext "SN19" cycle =
    @process_raw_timestamps fromisoformat_ext "SN19" sample_history.
Proof.
  destruct (@current_cycle fromisoformat_ext (List.filter is_workstation sample_history))
    as [cycle|e] eqn:E; [|by vm_compute in E].
  exists cycle. split; [reflexivity|]. split.
  - vm_compute in E. by injection E as <-.
  - by destruct (@current_cycle_suffices fromisoformat_ext "SN19" sample_history cycle E).
Defined.
